(** * The [useWallet] hook of wallet-test-project

    A shallow embedding of [src/hooks/useWallet.ts]: the [WalletState]
    record, the persisted reconnect flag in [localStorage], the provider
    and Web3 calls the hook awaits, and the handlers [connect],
    [disconnect], the mount-time auto-reconnect and the three provider
    listeners.  Asynchronous functions are terms of a small resumption
    monad ([Async]); the hook's run-time state ([Hook]) keeps the
    suspended continuations, so that calls and provider events interleave
    as they do on the browser's event loop. *)

From Stdlib Require Import ZArith String Ascii List Bool Lia DecimalString.
From Stdlib Require Import DecimalN DecimalPos.
From stdpp Require Import base gmap strings.
Import ListNotations.
Open Scope Z_scope.

(** ** JavaScript built-ins used by the hook *)

Module Js.

(** A JavaScript Number: a binary64 value.  [Finite s m e] is
    [(-1)^s * m * 2^e]; values built by [binary64] are canonical
    ([2^52 <= m < 2^53], or [e = -1074], or zero as [Finite s 0 0]). *)
Inductive Number : Type :=
| NaN
| Infinity (negative : bool)
| Finite (negative : bool) (m : Z) (e : Z).

Definition round_half_even (p q : Z) : Z :=
  let d := p / q in
  match 2 * (p mod q) ?= q with
  | Lt => d
  | Gt => d + 1
  | Eq => if Z.even d then d else d + 1
  end.

(** [p/q * 2^(-e)] as a fraction. *)
Definition scale2 (p q e : Z) : Z * Z :=
  if 0 <=? e then (p, q * 2 ^ e) else (p * 2 ^ (- e), q).

(** The Number value of the non-negative rational [p/q] (round to nearest,
    ties to even), with sign [negative]. *)
Definition binary64 (negative : bool) (p q : Z) : Number :=
  if p =? 0 then Finite negative 0 0 else
  let e0 := Z.log2 p - Z.log2 q - 53 in
  let '(p0, q0) := scale2 p q e0 in
  let e1 := if p0 / q0 <? 2 ^ 53 then e0 else e0 + 1 in
  let e := Z.max e1 (-1074) in
  let '(p1, q1) := scale2 p q e in
  let m := round_half_even p1 q1 in
  let '(m, e) := if m =? 2 ^ 53 then (2 ^ 52, e + 1) else (m, e) in
  if 971 <? e then Infinity negative
  else if m =? 0 then Finite negative 0 0
  else Finite negative m e.

(** [m * 2^e] as a fraction. *)
Definition fraction (m e : Z) : Z * Z :=
  if 0 <=? e then (m * 2 ^ e, 1) else (m, 2 ^ (- e)).

Definition number_eqb (x y : Number) : bool :=
  match x, y with
  | Finite s1 m1 e1, Finite s2 m2 e2 =>
      Bool.eqb s1 s2 && (m1 =? m2) && (e1 =? e2)
  | Infinity s1, Infinity s2 => Bool.eqb s1 s2
  | _, _ => false
  end.

(** Decimal digits of a non-negative integer; BigInt::toString and the
    digit strings of Number::toString. *)
Definition digits (n : Z) : string :=
  NilZero.string_of_uint (N.to_uint (Z.to_N n)).

Fixpoint zeros (n : nat) : string :=
  match n with
  | O => EmptyString
  | S n' => String "0" (zeros n')
  end.

(** [p/q * 10^(-t)] as a fraction. *)
Definition scale10 (p q t : Z) : Z * Z :=
  if 0 <=? t then (p, q * 10 ^ t) else (p * 10 ^ (- t), q).

Definition ge_pow10 (p q t : Z) : bool :=
  let '(p', q') := scale10 p q t in q' <=? p'.

(** The [n] of Number::toString: [10^(n-1) <= p/q < 10^n], for [p/q] in
    the binary64 range. *)
Definition decimal_exponent (p q : Z) : Z :=
  let t0 := (Z.log2 p - Z.log2 q - 1) * 1233 / 4096 in
  let t := if ge_pow10 p q (t0 + 2) then t0 + 2
           else if ge_pow10 p q (t0 + 1) then t0 + 1
           else if ge_pow10 p q t0 then t0
           else t0 - 1 in
  t + 1.

(** Does the [k]-digit decimal [s * 10^(n-k)] read back as [x]? *)
Definition roundtrips (x : Number) (s n k : Z) : bool :=
  let '(p, q) := scale10 s 1 (k - n) in number_eqb (binary64 false p q) x.

(** [|s * 10^(n-k) - p/q|] as a fraction. *)
Definition distance (p q s n k : Z) : Z * Z :=
  let '(a, b) := scale10 s 1 (k - n) in (Z.abs (a * q - p * b), b * q).

Definition closer (d1 d2 : Z * Z) : bool :=
  fst d1 * snd d2 <=? fst d2 * snd d1.

(** The two [k]-digit decimals around [p/q]. *)
Definition candidates (p q n k : Z) : list (Z * Z) :=
  let '(a, b) := scale10 p q (n - k) in
  let lo := a / b in
  let hi := lo + 1 in
  [(lo, n); if hi =? 10 ^ k then (10 ^ (k - 1), n + 1) else (hi, n)].

Definition shortest_at (x : Number) (p q n k : Z) : option (Z * Z) :=
  match filter (fun c => roundtrips x (fst c) (snd c) k) (candidates p q n k) with
  | [] => None
  | [c] => Some c
  | c1 :: c2 :: _ =>
      if closer (distance p q (fst c1) (snd c1) k)
                (distance p q (fst c2) (snd c2) k)
      then Some c1 else Some c2
  end.

(** Number::toString, step 5: the least [k] for which some [k]-digit
    decimal reads back as [x], and among those the one nearest to [x];
    17 digits always suffice for a binary64 value. *)
Fixpoint shortest (x : Number) (p q n k : Z) (fuel : nat) : Z * Z * Z :=
  match fuel with
  | O => (fst (scale10 p q (n - k)) / snd (scale10 p q (n - k)), n, k)
  | S fuel' =>
      match shortest_at x p q n k with
      | Some (s, n') => (s, n', k)
      | None => shortest x p q n (k + 1) fuel'
      end
  end.

Definition string_take (n : Z) (s : string) : string :=
  substring 0 (Z.to_nat n) s.

Definition string_drop (n : Z) (s : string) : string :=
  substring (Z.to_nat n) (String.length s - Z.to_nat n) s.

(** Number::toString(x), radix 10 (ECMA-262, 6.1.6.1.20). *)
Definition toString (x : Number) : string :=
  match x with
  | NaN => "NaN"
  | Infinity negative => if negative then "-Infinity" else "Infinity"
  | Finite negative m e =>
      if m =? 0 then "0" else
      let '(p, q) := fraction m e in
      let '(s, n, k) :=
        shortest (Finite false m e) p q (decimal_exponent p q) 1 17 in
      let ds := digits s in
      let body :=
        if (k <=? n) && (n <=? 21) then ds +:+ zeros (Z.to_nat (n - k))
        else if (0 <? n) && (n <=? 21)
        then string_take n ds +:+ "." +:+ string_drop n ds
        else if (-6 <? n) && (n <=? 0)
        then "0." +:+ zeros (Z.to_nat (- n)) +:+ ds
        else
          let ex := (if n - 1 <? 0 then "-" else "+")
                    +:+ digits (Z.abs (n - 1)) in
          if k =? 1 then ds +:+ "e" +:+ ex
          else string_take 1 ds +:+ "." +:+ string_drop 1 ds +:+ "e" +:+ ex in
      (if negative then "-" else "") +:+ body
  end.

(** Number.prototype.toFixed(f) (ECMA-262, 21.1.3.3), for [0 <= f <= 100]:
    the integer [n] with [n / 10^f] nearest to [x], the larger one on a
    tie, printed with [f] fractional digits; values from [10^21] on and
    non-finite ones are printed by [toString]. *)
Definition toFixed (f : nat) (x : Number) : string :=
  match x with
  | Finite negative m e =>
      let '(p, q) := fraction m e in
      if 10 ^ 21 * q <=? p then toString x else
      let n := (2 * p * 10 ^ Z.of_nat f + q) / (2 * q) in
      let ds := digits n in
      let ds := if (String.length ds <=? f)%nat
                then zeros (f + 1 - String.length ds) +:+ ds else ds in
      let k := String.length ds in
      let body := match f with
                  | O => ds
                  | _ => substring 0 (k - f) ds +:+ "."
                         +:+ substring (k - f) f ds
                  end in
      (if negative && negb (m =? 0) then "-" else "") +:+ body
  | _ => toString x
  end.

(** *** Reading numbers *)

Definition is_whitespace (c : ascii) : bool :=
  let n := nat_of_ascii c in
  ((9 <=? n) && (n <=? 13))%nat || (n =? 32)%nat.

Fixpoint trim_start (s : string) : string :=
  match s with
  | String c r => if is_whitespace c then trim_start r else s
  | EmptyString => s
  end.

(** An optional sign: [true] for a minus. *)
Definition read_sign (s : string) : bool * string :=
  match s with
  | String "-" r => (true, r)
  | String "+" r => (false, r)
  | _ => (false, s)
  end.

Definition hex_value (c : ascii) : option Z :=
  let n := Z.of_nat (nat_of_ascii c) in
  if (48 <=? n) && (n <=? 57) then Some (n - 48)
  else if (97 <=? n) && (n <=? 102) then Some (n - 87)
  else if (65 <=? n) && (n <=? 70) then Some (n - 55)
  else None.

Definition digit_value (radix : Z) (c : ascii) : option Z :=
  match hex_value c with
  | Some d => if d <? radix then Some d else None
  | None => None
  end.

(** The longest prefix of radix-[radix] digits: its value continuing from
    [acc], the number of digits read, and the rest of the string. *)
Fixpoint read_digits (radix : Z) (s : string) (acc : Z) (count : Z)
  : Z * Z * string :=
  match s with
  | String c r =>
      match digit_value radix c with
      | Some d => read_digits radix r (acc * radix + d) (count + 1)
      | None => (acc, count, s)
      end
  | EmptyString => (acc, count, s)
  end.

(** The ExponentPart of a decimal literal, 0 when there is none. *)
Definition read_exponent (s : string) : Z :=
  match s with
  | String c r =>
      if Ascii.eqb c "e" || Ascii.eqb c "E" then
        let '(neg, r) := read_sign r in
        let '(v, count, _) := read_digits 10 r 0 0 in
        if count =? 0 then 0 else if neg then - v else v
      else 0
  | EmptyString => 0
  end.

(** Number.parseFloat(s) (ECMA-262, 19.2.4): the longest prefix of the
    trimmed string that is a StrDecimalLiteral, or NaN; the literal's
    value is rounded correctly, as engines do (the standard lets them
    approximate past the 20th significant digit).  White space is the
    ASCII one. *)
Definition parseFloat (s : string) : Number :=
  let '(neg, s) := read_sign (trim_start s) in
  if String.prefix "Infinity" s then Infinity neg else
  let '(i, ni, s) := read_digits 10 s 0 0 in
  let '(v, nf, s) := match s with
                     | String "." r => read_digits 10 r i 0
                     | _ => (i, 0, s)
                     end in
  if ni + nf =? 0 then NaN else
  let '(p, q) := scale10 v 1 (nf - read_exponent s) in
  binary64 neg p q.

(** parseInt(s, 16) (ECMA-262, 19.2.5). *)
Definition parseInt16 (s : string) : Number :=
  let '(neg, s) := read_sign (trim_start s) in
  let s := match s with
           | String "0" (String c r) =>
               if Ascii.eqb c "x" || Ascii.eqb c "X" then r else s
           | _ => s
           end in
  let '(v, count, _) := read_digits 16 s 0 0 in
  if count =? 0 then NaN else binary64 neg v 1.

(** String.prototype.includes: [pat] occurs in [s]. *)
Fixpoint includes (pat s : string) : bool :=
  String.prefix pat s ||
  match s with
  | String _ r => includes pat r
  | EmptyString => false
  end.

End Js.

(** ** web3.js *)

Module Web3.

Fixpoint strip_trailing_zeros (s : string) : string :=
  match s with
  | EmptyString => EmptyString
  | String c r =>
      match strip_trailing_zeros r with
      | EmptyString => if Ascii.eqb c "0" then EmptyString
                       else String c EmptyString
      | r' => String c r'
      end
  end.

(** [web3.utils.fromWei(wei, "ether")] (the library is not part of the
    repository): the exact decimal expansion of [wei / 10^18], without
    trailing zeros. *)
Definition fromWei (wei : N) : string :=
  let w := Z.of_N wei in
  let frac := Js.digits (w mod 10 ^ 18) in
  let frac := strip_trailing_zeros
                (Js.zeros (18 - String.length frac) +:+ frac) in
  match frac with
  | EmptyString => Js.digits (w / 10 ^ 18)
  | _ => Js.digits (w / 10 ^ 18) +:+ "." +:+ frac
  end.

End Web3.

(** ** Data model *)

(** [WalletState] (src/types/wallet.ts); [null] is [None]. *)
Record WalletState : Type := mkWalletState {
  address : option string;
  isConnected : bool;
  isConnecting : bool;
  error : option string;
  chainId : option string;
  balance : option string;
}.

(** What a [catch] clause receives: an [Error] instance with its message,
    or any other thrown value. *)
Inductive Thrown : Type :=
| ErrorObject (message : string)
| NonError.

Inductive Settled (A : Type) : Type :=
| Fulfilled (value : A)
| Rejected (reason : Thrown).
Arguments Fulfilled {A} value.
Arguments Rejected {A} reason.

(** The reads of the Web3 instance the hook awaits; both resolve to a
    bigint. *)
Inductive Web3Query : Type :=
| GetChainId
| GetBalance (address : string).

(** The result of [window.ethereum.request] for the account methods, cast
    by the source to [string[]]; [None] is a [null] or [undefined]
    result. *)
Definition Accounts : Type := option (list string).

(** What the hook can see and change besides its pending promises: its
    React state, the [walletState.isConnected] captured by the provider
    listeners registered by the last run of the listener effect, the two
    storage areas, and whether [window.ethereum] is defined. *)
Record Browser : Type := mkBrowser {
  walletState : WalletState;
  listener_isConnected : bool;
  localStorage : gmap string string;
  sessionStorage : gmap string string;
  ethereum : bool;
}.

Definition initialWalletState : WalletState :=
  {| address := None; isConnected := false; isConnecting := false;
     error := None; chainId := None; balance := None |}.

(** ** Asynchronous functions *)

(** The body of a function of the hook, as the statements still to run:
    [Done] is a return (or the end of the body), [Throw] a pending
    exception, [Update] and [Read] act on what the hook sees, [Request]
    and [Rpc] suspend at an [await] until the promise settles, and
    [RequestDetached] issues a request whose promise is dropped. *)
Inductive Async : Type :=
| Done
| Throw (e : Thrown)
| Update (f : Browser -> Browser) (k : Async)
| Read (k : Browser -> Async)
| Request (method : string) (k : Settled Accounts -> Async)
| RequestDetached (method : string) (k : Async)
| Rpc (q : Web3Query) (k : Settled N -> Async).

(** [try { p } catch (e) { handler e }] *)
Fixpoint try_catch (p : Async) (handler : Thrown -> Async) : Async :=
  match p with
  | Done => Done
  | Throw e => handler e
  | Update f k => Update f (try_catch k handler)
  | Read k => Read (fun b => try_catch (k b) handler)
  | Request m k => Request m (fun r => try_catch (k r) handler)
  | RequestDetached m k => RequestDetached m (try_catch k handler)
  | Rpc q k => Rpc q (fun r => try_catch (k r) handler)
  end.

(** [await window.ethereum.request({ method })]: a rejection is thrown at
    the [await]. *)
Definition await_request (method : string) (k : Accounts -> Async) : Async :=
  Request method (fun r =>
    match r with
    | Fulfilled v => k v
    | Rejected e => Throw e
    end).

(** [await web3.eth.getChainId()], [await web3.eth.getBalance(address)] *)
Definition await_rpc (q : Web3Query) (k : N -> Async) : Async :=
  Rpc q (fun r =>
    match r with
    | Fulfilled v => k v
    | Rejected e => Throw e
    end).

(** [setWalletState(f)]; updates are applied in the order they are
    queued. *)
Definition setWalletState (f : WalletState -> WalletState) (k : Async)
  : Async :=
  Update (fun b =>
    {| walletState := f (walletState b);
       listener_isConnected := listener_isConnected b;
       localStorage := localStorage b;
       sessionStorage := sessionStorage b;
       ethereum := ethereum b |}) k.

Definition localStorage_setItem (key value : string) (k : Async) : Async :=
  Update (fun b =>
    {| walletState := walletState b;
       listener_isConnected := listener_isConnected b;
       localStorage := <[key := value]> (localStorage b);
       sessionStorage := sessionStorage b;
       ethereum := ethereum b |}) k.

Definition localStorage_removeItem (key : string) (k : Async) : Async :=
  Update (fun b =>
    {| walletState := walletState b;
       listener_isConnected := listener_isConnected b;
       localStorage := delete key (localStorage b);
       sessionStorage := sessionStorage b;
       ethereum := ethereum b |}) k.

Definition sessionStorage_clear (k : Async) : Async :=
  Update (fun b =>
    {| walletState := walletState b;
       listener_isConnected := listener_isConnected b;
       localStorage := localStorage b;
       sessionStorage := ∅;
       ethereum := ethereum b |}) k.

(** The value thrown when [accounts.length] is read from [null]. *)
Definition TypeError_length : Thrown :=
  ErrorObject "Cannot read properties of null (reading 'length')".

(** ** The hook *)

(** [Number.parseFloat(web3.utils.fromWei(balanceWei, "ether")).toFixed(4)] *)
Definition formatBalance (balanceWei : N) : string :=
  let balanceEth := Web3.fromWei balanceWei in
  Js.toFixed 4 (Js.parseFloat balanceEth).

(** [String(chainId)] of a bigint. *)
Definition String_of_bigint (n : N) : string := Js.digits (Z.of_N n).

(** The record written by [connect] (line 71) and by the auto-reconnect
    (line 161). *)
Definition connectedState (address : string) (chainId balanceWei : N)
  : WalletState :=
  {| address := Some address;
     isConnected := true;
     isConnecting := false;
     error := None;
     chainId := Some (String_of_bigint chainId);
     balance := Some (formatBalance balanceWei) |}.

(** The inner [catch (requestError)] of [connect] (lines 82-95). *)
Definition connect_requestError (requestError : Thrown) : Async :=
  let errorMessage :=
    match requestError with
    | ErrorObject message => message
    | NonError => "User rejected connection"
    end in
  setWalletState (fun prev =>
    {| address := address prev;
       isConnected := isConnected prev;
       isConnecting := false;
       error := Some (if Js.includes "User rejected" errorMessage
                      then "Connection rejected by user"
                      else errorMessage);
       chainId := chainId prev;
       balance := balance prev |}) Done.

(** The outer [catch (err)] of [connect] (lines 96-105). *)
Definition connect_err (err : Thrown) : Async :=
  let errorMessage :=
    match err with
    | ErrorObject message => message
    | NonError => "Unknown error"
    end in
  setWalletState (fun prev =>
    {| address := address prev;
       isConnected := false;
       isConnecting := false;
       error := Some errorMessage;
       chainId := chainId prev;
       balance := balance prev |}) Done.

(** The inner [try] block of [connect] (lines 43-81). *)
Definition connect_request : Async :=
  await_request "eth_requestAccounts" (fun accounts =>
    match accounts with
    | None | Some [] =>
        setWalletState (fun prev =>
          {| address := address prev;
             isConnected := isConnected prev;
             isConnecting := false;
             error := Some "No accounts found or user rejected connection";
             chainId := chainId prev;
             balance := balance prev |}) Done
    | Some (address :: _) =>
        await_rpc GetChainId (fun chainId =>
        await_rpc (GetBalance address) (fun balanceWei =>
        setWalletState (fun _ => connectedState address chainId balanceWei)
        (localStorage_setItem "isWalletConnected" "true" Done)))
    end).

(** [connect] from line 40 on: the provider is present. *)
Definition connect_start : Async :=
  setWalletState (fun prev =>
    {| address := address prev;
       isConnected := isConnected prev;
       isConnecting := true;
       error := None;
       chainId := chainId prev;
       balance := balance prev |})
  (try_catch connect_request connect_requestError).

(** [connect] (lines 28-106). *)
Definition connect : Async :=
  try_catch
    (Read (fun b =>
       if negb (ethereum b) then
         setWalletState (fun prev =>
           {| address := address prev;
              isConnected := isConnected prev;
              isConnecting := isConnecting prev;
              error := Some "MetaMask is not installed. Please install it.";
              chainId := chainId prev;
              balance := balance prev |}) Done
       else connect_start))
    connect_err.

(** [disconnect] (lines 109-140); the [wallet_revokePermissions] promise
    is not awaited and its rejection is swallowed. *)
Definition disconnect : Async :=
  setWalletState (fun _ => initialWalletState)
  (localStorage_removeItem "isWalletConnected"
  (sessionStorage_clear
  (Read (fun b =>
     if ethereum b then RequestDetached "wallet_revokePermissions" Done
     else Done)))).

(** [isMetamaskInstalled] (lines 18-19). *)
Definition isMetamaskInstalled (b : Browser) : bool := ethereum b.

(** [getWeb3] (lines 22-25); [None] is [null], and the instance carries
    nothing the hook reads. *)
Definition getWeb3 (b : Browser) : option unit :=
  if negb (ethereum b) then None else Some tt.

(** The auto-reconnect effect (lines 143-176), run at mount. *)
Definition autoReconnect : Async :=
  Read (fun b =>
    let shouldReconnect := localStorage b !! "isWalletConnected" in
    if decide (shouldReconnect = Some "true") then
      match getWeb3 b with
      | None => Done
      | Some web3 =>
        try_catch
          (await_request "eth_accounts" (fun accounts =>
             match accounts with
             | None => Throw TypeError_length
             | Some [] => Done
             | Some (address :: _) =>
                 await_rpc GetChainId (fun chainId =>
                 await_rpc (GetBalance address) (fun balanceWei =>
                 setWalletState
                   (fun _ => connectedState address chainId balanceWei)
                   Done))
             end))
          (fun _ => localStorage_removeItem "isWalletConnected" Done)
      end
    else Done).

(** [handleBeforeUnload] (lines 180-194); [navType] is
    [navEntries[0]?.type]. *)
Definition handleBeforeUnload (navType : option string) : Async :=
  if decide (navType = Some "reload") then Done
  else localStorage_removeItem "isWalletConnected" Done.

(** The [catch (error)] clauses of the two listeners (lines 228-234 and
    283-289). *)
Definition accountsChanged_error (_ : Thrown) : Async :=
  setWalletState (fun prev =>
    {| address := address prev;
       isConnected := isConnected prev;
       isConnecting := isConnecting prev;
       error := Some "Failed to update account information";
       chainId := chainId prev;
       balance := balance prev |}) Done.

Definition chainChanged_error (_ : Thrown) : Async :=
  setWalletState (fun prev =>
    {| address := address prev;
       isConnected := isConnected prev;
       isConnecting := isConnecting prev;
       error := Some "Failed to update network information";
       chainId := chainId prev;
       balance := balance prev |}) Done.

(** [handleAccountsChanged] (lines 207-236). *)
Definition handleAccountsChanged (accounts : list string) : Async :=
  match accounts with
  | [] => disconnect
  | address :: _ =>
      try_catch
        (await_rpc GetChainId (fun chainId =>
         await_rpc (GetBalance address) (fun balanceWei =>
         setWalletState (fun prev =>
           {| address := Some address;
              isConnected := true;
              isConnecting := isConnecting prev;
              error := None;
              chainId := Some (String_of_bigint chainId);
              balance := Some (formatBalance balanceWei) |}) Done)))
        accountsChanged_error
  end.

(** [handleChainChanged] (lines 238-290); [walletState.isConnected] is the
    value the listener closed over. *)
Definition handleChainChanged (chainIdHex : string) : Async :=
  Read (fun b =>
    if negb (listener_isConnected b) then Done
    else
      try_catch
        (let chainId := Js.toString (Js.parseInt16 chainIdHex) in
         await_request "eth_accounts" (fun accounts =>
           match accounts with
           | None => Throw TypeError_length
           | Some (address :: _) =>
               await_rpc (GetBalance address) (fun balanceWei =>
               let formattedBalance := formatBalance balanceWei in
               setWalletState (fun prev =>
                 {| address := Some address;
                    isConnected := true;
                    isConnecting := isConnecting prev;
                    error := None;
                    chainId := Some chainId;
                    balance := Some formattedBalance |}) Done)
           | Some [] => disconnect
           end))
        chainChanged_error).

(** [handleDisconnect] (lines 292-295). *)
Definition handleDisconnect : Async := disconnect.

(** ** The event loop *)

(** A suspended [async] function: the promise it awaits has not settled
    yet. *)
Inductive Suspended : Type :=
| AwaitingRequest (k : Settled Accounts -> Async)
| AwaitingRpc (k : Settled N -> Async).

(** A call that left the hook. *)
Inductive Call : Type :=
| ProviderRequest (method : string)
| Web3Call (q : Web3Query).

(** The running hook: what it sees, the functions suspended at an
    [await], and every call issued so far, oldest first. *)
Record Hook : Type := mkHook {
  browser : Browser;
  suspended : list Suspended;
  issued : list Call;
}.

(** Run a function body to its end or to its next [await]. *)
Fixpoint advance (p : Async) (h : Hook) : Hook :=
  match p with
  | Done => h
  | Throw _ => h
  | Update f k =>
      advance k {| browser := f (browser h);
                   suspended := suspended h;
                   issued := issued h |}
  | Read k => advance (k (browser h)) h
  | Request m k =>
      {| browser := browser h;
         suspended := suspended h ++ [AwaitingRequest k];
         issued := issued h ++ [ProviderRequest m] |}
  | RequestDetached m k =>
      advance k {| browser := browser h;
                   suspended := suspended h;
                   issued := issued h ++ [ProviderRequest m] |}
  | Rpc q k =>
      {| browser := browser h;
         suspended := suspended h ++ [AwaitingRpc k];
         issued := issued h ++ [Web3Call q] |}
  end.

(** What the event loop delivers to the hook: the mount of the component,
    calls of the two exported functions, the provider's notifications,
    the page's [beforeunload], and the settlement of the promise awaited
    by the [i]-th suspended function. *)
Inductive Event : Type :=
| Mount
| CallConnect
| CallDisconnect
| AccountsChanged (accounts : list string)
| ChainChanged (chainIdHex : string)
| ProviderDisconnect
| BeforeUnload (navType : option string)
| SettleRequest (i : nat) (r : Settled Accounts)
| SettleRpc (i : nat) (r : Settled N).

Definition forget (i : nat) (h : Hook) : Hook :=
  {| browser := browser h;
     suspended := delete i (suspended h);
     issued := issued h |}.

(** The provider listeners exist only when [window.ethereum] did (line
    205). *)
Definition dispatch (ev : Event) (h : Hook) : Hook :=
  match ev with
  | Mount => advance autoReconnect h
  | CallConnect => advance connect h
  | CallDisconnect => advance disconnect h
  | AccountsChanged accounts =>
      if ethereum (browser h) then advance (handleAccountsChanged accounts) h
      else h
  | ChainChanged chainIdHex =>
      if ethereum (browser h) then advance (handleChainChanged chainIdHex) h
      else h
  | ProviderDisconnect =>
      if ethereum (browser h) then advance handleDisconnect h else h
  | BeforeUnload navType => advance (handleBeforeUnload navType) h
  | SettleRequest i r =>
      match suspended h !! i with
      | Some (AwaitingRequest k) => advance (k r) (forget i h)
      | _ => h
      end
  | SettleRpc i r =>
      match suspended h !! i with
      | Some (AwaitingRpc k) => advance (k r) (forget i h)
      | _ => h
      end
  end.

(** React commits the queued state and re-runs the listener effect, whose
    dependency list holds [walletState.isConnected] (line 311): the
    listeners close over the committed value. *)
Definition commit (h : Hook) : Hook :=
  {| browser :=
       {| walletState := walletState (browser h);
          listener_isConnected := isConnected (walletState (browser h));
          localStorage := localStorage (browser h);
          sessionStorage := sessionStorage (browser h);
          ethereum := ethereum (browser h) |};
     suspended := suspended h;
     issued := issued h |}.

Definition step (h : Hook) (ev : Event) : Hook := commit (dispatch ev h).

Definition run (h : Hook) (evs : list Event) : Hook := fold_left step evs h.

(** Every state the hook goes through, the first one included. *)
Fixpoint trace (h : Hook) (evs : list Event) : list Hook :=
  h :: match evs with
       | [] => []
       | ev :: evs' => trace (step h ev) evs'
       end.

(** The hook before its first event: [useState]'s initial record (lines
    8-15), whatever the storage areas hold, nothing pending. *)
Definition initialHook (stored session : gmap string string)
    (provider : bool) : Hook :=
  {| browser := {| walletState := initialWalletState;
                   listener_isConnected := false;
                   localStorage := stored;
                   sessionStorage := session;
                   ethereum := provider |};
     suspended := [];
     issued := [] |}.

(** The state the UI renders. *)
Definition state (h : Hook) : WalletState := walletState (browser h).

(** The persisted reconnect flag. *)
Definition reconnectFlag (h : Hook) : option string :=
  localStorage (browser h) !! "isWalletConnected".

(** The methods passed to [window.ethereum.request] among [calls]. *)
Fixpoint requested (calls : list Call) : list string :=
  match calls with
  | [] => []
  | ProviderRequest m :: calls' => m :: requested calls'
  | Web3Call _ :: calls' => requested calls'
  end.

(** The calls issued on the way from [h] to [h']. *)
Definition issued_since (h h' : Hook) : list Call :=
  drop (length (issued h)) (issued h').

(** ** Vocabulary of the properties *)

(** A hook whose listeners were registered after the last change of
    [isConnected]. *)
Definition listeners_current (h : Hook) : Prop :=
  listener_isConnected (browser h) = isConnected (state h).

(** A [connect()] on a hook with nothing pending, granted by the provider:
    one account, its chain id and its balance in wei. *)
Definition grant (account : string) (chain wei : N) : list Event :=
  [CallConnect;
   SettleRequest 0 (Fulfilled (Some [account]));
   SettleRpc 0 (Fulfilled chain);
   SettleRpc 0 (Fulfilled wei)].

(** A store connected through [connect()]: account "0xABC" on chain 1,
    holding 1.23456 ETH. *)
Definition connectedHook : Hook :=
  run (initialHook ∅ ∅ true) (grant "0xABC" 1 1234560000000000000).

(** The state left by a failure inside the inner [try] of [connect]: only
    [isConnecting] and [error] are written. *)
Definition requestFailed (reason : Thrown) (prev : WalletState)
  : WalletState :=
  {| address := address prev;
     isConnected := isConnected prev;
     isConnecting := false;
     error :=
       Some (let errorMessage :=
               match reason with
               | ErrorObject message => message
               | NonError => "User rejected connection"
               end in
             if Js.includes "User rejected" errorMessage
             then "Connection rejected by user"
             else errorMessage);
     chainId := chainId prev;
     balance := balance prev |}.

(** [h] with another React state, listener snapshot and call log. *)
Definition with_state (w : WalletState) (seen : bool) (h : Hook)
    (calls : list Call) : Hook :=
  {| browser := {| walletState := w;
                   listener_isConnected := seen;
                   localStorage := localStorage (browser h);
                   sessionStorage := sessionStorage (browser h);
                   ethereum := ethereum (browser h) |};
     suspended := suspended h;
     issued := calls |}.

(** The hook of a reloaded page: the flag of the previous session is
    still stored and the provider is present. *)
Definition reloadedHook : Hook :=
  initialHook {["isWalletConnected" := "true"]} ∅ true.

(** The hook after an auto-reconnect that threw: the flag is removed and
    no state is written (lines 170-173). *)
Definition reconnectFailed (h : Hook) (calls : list Call) : Hook :=
  {| browser :=
       {| walletState := state h;
          listener_isConnected := isConnected (state h);
          localStorage :=
            delete "isWalletConnected" (localStorage (browser h));
          sessionStorage := sessionStorage (browser h);
          ethereum := ethereum (browser h) |};
     suspended := suspended h;
     issued := calls |}.

(** The invariant of the data model: [isConnecting] and [isConnected]
    are not both true. *)
Definition never_both (w : WalletState) : Prop :=
  ~ (isConnecting w = true /\ isConnected w = true).

(** Calls of [connect()] and [disconnect()], and the settlement of the
    promises they await. *)
Definition is_call (ev : Event) : bool :=
  match ev with
  | CallConnect | CallDisconnect | SettleRequest _ _ | SettleRpc _ _ => true
  | _ => false
  end.

(** Every [connect()] of the run is issued while [isConnected] is false,
    as the card's button does (it renders "Connect Wallet" only when
    [!isConnected]). *)
Fixpoint connect_gated (h : Hook) (evs : list Event) : bool :=
  match evs with
  | [] => true
  | ev :: evs' =>
      match ev with
      | CallConnect => negb (isConnected (state h))
      | _ => true
      end && connect_gated (step h ev) evs'
  end.

(** A function body that never makes both flags true on a store where
    they are not. *)
Inductive Safe : Async -> Prop :=
| Safe_Done : Safe Done
| Safe_Throw e : Safe (Throw e)
| Safe_Update f k :
    (forall b, never_both (walletState b) -> never_both (walletState (f b))) ->
    Safe k -> Safe (Update f k)
| Safe_Read k : (forall b, Safe (k b)) -> Safe (Read k)
| Safe_Request m k : (forall r, Safe (k r)) -> Safe (Request m k)
| Safe_RequestDetached m k : Safe k -> Safe (RequestDetached m k)
| Safe_Rpc q k : (forall r, Safe (k r)) -> Safe (Rpc q k).

(** The same of a suspended function, however its promise settles. *)
Definition SafeSuspended (s : Suspended) : Prop :=
  match s with
  | AwaitingRequest k => forall r, Safe (k r)
  | AwaitingRpc k => forall r, Safe (k r)
  end.

(** The invariant of the runs of [connect] and [disconnect]. *)
Definition hook_ok (h : Hook) : Prop :=
  never_both (state h) /\ Forall SafeSuspended (suspended h).

(** A stale [connect()] completes after a [disconnect()], the store is
    disconnected again, and a second [connect()] is rejected. *)
Definition gatedCalls : list Event :=
  [CallConnect;
   SettleRequest 0 (Fulfilled (Some ["0xABC"%string]));
   CallDisconnect;
   SettleRpc 0 (Fulfilled 1%N);
   SettleRpc 0 (Fulfilled 1234560000000000000%N);
   CallDisconnect;
   CallConnect;
   SettleRequest 0 (Rejected NonError)].

(** ** The wallet card *)

(** String.prototype.slice on a string of one-byte characters. *)
Module JsString.

Fixpoint take (n : nat) (s : string) : string :=
  match n, s with
  | S n', String c r => String c (take n' r)
  | _, _ => EmptyString
  end.

Fixpoint drop (n : nat) (s : string) : string :=
  match n, s with
  | S n', String _ r => drop n' r
  | _, _ => s
  end.

(** A relative index of [slice]: negative ones count from the end, and
    the result is clamped to [0 .. len]. *)
Definition clamp (len : nat) (i : Z) : nat :=
  if i <? 0 then Z.to_nat (Z.max (Z.of_nat len + i) 0)
  else Z.to_nat (Z.min i (Z.of_nat len)).

(** [s.slice(start, end)]; [None] is an omitted [end]. *)
Definition slice (s : string) (start : Z) (end_ : option Z) : string :=
  let len := String.length s in
  let from := clamp len start in
  let to := match end_ with
            | Some e => clamp len e
            | None => len
            end in
  take (to - from) (drop from s).

End JsString.

(** The second [WalletCard] of src/unnamed/part_001 (from line 138 on),
    the one with the helpers implemented. *)
Module WalletCard.

(** [formatAddress] (lines 174-177). *)
Definition formatAddress (addr : string) : string :=
  JsString.slice addr 0 (Some 6) +:+ "..." +:+ JsString.slice addr (-4) None.

(** The own properties of [chainMap] (lines 182-186). *)
Definition chainMap : list (string * string) :=
  [("1", "Ethereum Mainnet");
   ("5", "Goerli Testnet");
   ("11155111", "Sepolia Testnet")]%string.

(** The property names every object literal inherits from
    [Object.prototype]; each of them reads as a truthy value that is not a
    string. *)
Definition Object_prototype : list string :=
  ["constructor"; "__defineGetter__"; "__defineSetter__"; "hasOwnProperty";
   "__lookupGetter__"; "__lookupSetter__"; "isPrototypeOf";
   "propertyIsEnumerable"; "toString"; "valueOf"; "__proto__";
   "toLocaleString"]%string.

(** What [getChainName] returns: a string, or the member of
    [Object.prototype] that [chainMap[id]] found. *)
Inductive ChainName : Type :=
| Name (s : string)
| Inherited (key : string).

Fixpoint own_property (map : list (string * string)) (id : string)
  : option string :=
  match map with
  | [] => None
  | (key, value) :: map' =>
      if String.eqb key id then Some value else own_property map' id
  end.

(** [getChainName] (lines 180-188): [chainMap[id] || `Chain ${id}`]. *)
Definition getChainName (id : string) : ChainName :=
  match own_property chainMap id with
  | Some name =>
      if String.eqb name "" then Name ("Chain " +:+ id) else Name name
  | None =>
      if existsb (String.eqb id) Object_prototype then Inherited id
      else Name ("Chain " +:+ id)
  end.

(** The button at the bottom of the card (lines 302-324). *)
Inductive Button : Type :=
| ConnectButton (disabled : bool)
| DisconnectButton.

Definition button (h : Hook) : Button :=
  if negb (isConnected (state h))
  then ConnectButton (negb (isMetamaskInstalled (browser h))
                      || isConnecting (state h))
  else DisconnectButton.

(** A click on that button; a disabled button does not call its
    [onClick]. *)
Definition click (h : Hook) : Hook :=
  match button h with
  | ConnectButton true => h
  | ConnectButton false => step h CallConnect
  | DisconnectButton => step h CallDisconnect
  end.

(** What happens to a mounted card: the user clicks the button, or a
    promise awaited by the hook settles. *)
Inductive Gesture : Type :=
| Click
| Settles (ev : Event).

Definition react (h : Hook) (g : Gesture) : Hook :=
  match g with
  | Click => click h
  | Settles ev =>
      match ev with
      | SettleRequest _ _ | SettleRpc _ _ => step h ev
      | _ => h
      end
  end.

Fixpoint views (h : Hook) (gs : list Gesture) : list Hook :=
  h :: match gs with
       | [] => []
       | g :: gs' => views (react h g) gs'
       end.

End WalletCard.

(** ** What the functions of the hook may do *)

(** The function the hook runs for an event; settlements resume a
    suspended one instead. *)
Definition handler (ev : Event) : option Async :=
  match ev with
  | Mount => Some autoReconnect
  | CallConnect => Some connect
  | CallDisconnect => Some disconnect
  | AccountsChanged accounts => Some (handleAccountsChanged accounts)
  | ChainChanged chainIdHex => Some (handleChainChanged chainIdHex)
  | ProviderDisconnect => Some handleDisconnect
  | BeforeUnload navType => Some (handleBeforeUnload navType)
  | SettleRequest _ _ | SettleRpc _ _ => None
  end.

Section Respects.

Variable Inv : Browser -> Prop.
Variable M : string -> Prop.

(** A function body that keeps [Inv] and requests only methods in [M],
    however the promises it awaits settle. *)
Inductive Respects : Async -> Prop :=
| Respects_Done : Respects Done
| Respects_Throw e : Respects (Throw e)
| Respects_Update f k :
    (forall b, Inv b -> Inv (f b)) -> Respects k -> Respects (Update f k)
| Respects_Read k : (forall b, Respects (k b)) -> Respects (Read k)
| Respects_Request m k :
    M m -> (forall r, Respects (k r)) -> Respects (Request m k)
| Respects_RequestDetached m k :
    M m -> Respects k -> Respects (RequestDetached m k)
| Respects_Rpc q k : (forall r, Respects (k r)) -> Respects (Rpc q k).

Definition SuspendedRespects (s : Suspended) : Prop :=
  match s with
  | AwaitingRequest k => forall r, Respects (k r)
  | AwaitingRpc k => forall r, Respects (k r)
  end.

Definition call_allowed (c : Call) : Prop :=
  match c with
  | ProviderRequest m => M m
  | Web3Call _ => True
  end.

Definition hook_respects (h : Hook) : Prop :=
  Inv (browser h)
  /\ Forall SuspendedRespects (suspended h)
  /\ Forall call_allowed (issued h).

End Respects.

(** A function body in which no exception escapes. *)
Inductive NoThrow : Async -> Prop :=
| NoThrow_Done : NoThrow Done
| NoThrow_Update f k : NoThrow k -> NoThrow (Update f k)
| NoThrow_Read k : (forall b, NoThrow (k b)) -> NoThrow (Read k)
| NoThrow_Request m k : (forall r, NoThrow (k r)) -> NoThrow (Request m k)
| NoThrow_RequestDetached m k : NoThrow k -> NoThrow (RequestDetached m k)
| NoThrow_Rpc q k : (forall r, NoThrow (k r)) -> NoThrow (Rpc q k).

(** The fields of a connected store and [isConnected] go together. *)
Definition populated (w : WalletState) : Prop :=
  if isConnected w
  then address w <> None /\ chainId w <> None /\ balance w <> None
  else address w = None /\ chainId w = None /\ balance w = None.

(** The hook's own use of [localStorage]: the keys of others keep the
    value [stored] had, and the flag is absent, "true", or what [stored]
    had. *)
Definition storage_respected (stored : gmap string string) (b : Browser)
  : Prop :=
  (forall key, key <> "isWalletConnected"%string ->
               localStorage b !! key = stored !! key)
  /\ (localStorage b !! "isWalletConnected"%string = None
      \/ localStorage b !! "isWalletConnected"%string = Some "true"%string
      \/ localStorage b !! "isWalletConnected"%string
         = stored !! "isWalletConnected"%string).

(** The three provider methods of the source. *)
Definition known_method (m : string) : Prop :=
  In m ["eth_requestAccounts"; "eth_accounts"; "wallet_revokePermissions"]%string.







(** The state after a failed listener: only [error] is written. *)
Definition listenerFailed (message : string) (prev : WalletState)
  : WalletState :=
  {| address := address prev;
     isConnected := isConnected prev;
     isConnecting := isConnecting prev;
     error := Some message;
     chainId := chainId prev;
     balance := balance prev |}.

(** * Properties *)

Arguments formatBalance : simpl never.
Arguments String_of_bigint : simpl never.
Arguments Js.toString : simpl never.
Arguments Js.parseInt16 : simpl never.
Arguments Js.includes : simpl never.
Arguments run : simpl never.

(** ** Stepping through a run *)

Lemma run_nil (h : Hook) : run h [] = h.
Proof. reflexivity. Qed.

Lemma run_cons (h : Hook) (ev : Event) (evs : list Event) :
  run h (ev :: evs) = run (step h ev) evs.
Proof. reflexivity. Qed.

(** The function suspended last is resumed by the settlement addressed to
    the end of the list. *)
Lemma step_settle_request b (l : list Suspended) c k r :
  step {| browser := b; suspended := l ++ [AwaitingRequest k]; issued := c |}
       (SettleRequest (length l) r)
  = commit (advance (k r) {| browser := b; suspended := l; issued := c |}).
Proof.
  unfold step, dispatch, forget. cbn [suspended browser issued].
  rewrite list_lookup_middle by reflexivity.
  rewrite delete_middle, app_nil_r. reflexivity.
Qed.

Lemma step_settle_rpc b (l : list Suspended) c k r :
  step {| browser := b; suspended := l ++ [AwaitingRpc k]; issued := c |}
       (SettleRpc (length l) r)
  = commit (advance (k r) {| browser := b; suspended := l; issued := c |}).
Proof.
  unfold step, dispatch, forget. cbn [suspended browser issued].
  rewrite list_lookup_middle by reflexivity.
  rewrite delete_middle, app_nil_r. reflexivity.
Qed.

(** Evaluate the first event of a run on an explicit hook. *)
Ltac step_run :=
  rewrite run_cons;
  first [ rewrite step_settle_request
        | rewrite step_settle_rpc
        | unfold step at 1; unfold dispatch at 1 ];
  cbn; unfold commit; cbn.

Ltac explicit_hook h :=
  destruct h as [[?ws ?seen ?stored ?session ?provider] ?pending ?calls];
  cbn in *; subst.

Lemma commit_listeners_current (h : Hook) : listeners_current (commit h).
Proof. reflexivity. Qed.

(** Every step ends with the commit, so every hook that has taken a step
    has current listeners; so has the initial one. *)
Lemma step_listeners_current (h : Hook) (ev : Event) :
  listeners_current (step h ev).
Proof. apply commit_listeners_current. Qed.

Lemma initialHook_listeners_current stored session provider :
  listeners_current (initialHook stored session provider).
Proof. reflexivity. Qed.

Lemma commit_current (h : Hook) : listeners_current h -> commit h = h.
Proof.
  destruct h as [[ws seen stored session provider] pending calls].
  unfold listeners_current, state, commit. cbn. intros ->. reflexivity.
Qed.

(** ** disconnect *)

(** What [disconnect] leaves behind, from any hook. *)
Lemma advance_disconnect (h : Hook) :
  advance disconnect h =
  {| browser := {| walletState := initialWalletState;
                   listener_isConnected := listener_isConnected (browser h);
                   localStorage :=
                     delete "isWalletConnected" (localStorage (browser h));
                   sessionStorage := ∅;
                   ethereum := ethereum (browser h) |};
     suspended := suspended h;
     issued := if ethereum (browser h)
               then issued h ++ [ProviderRequest "wallet_revokePermissions"]
               else issued h |}.
Proof.
  explicit_hook h. destruct provider; reflexivity.
Qed.

(** C3: from every prior state, [disconnect()] yields exactly the default
    record and clears the persisted reconnect flag; a second
    [disconnect()] right after it changes neither the state nor the
    storage areas. *)
Theorem disconnect_resets_and_is_idempotent (h : Hook) :
  state (step h CallDisconnect) =
    {| address := None; isConnected := false; isConnecting := false;
       error := None; chainId := None; balance := None |}
  /\ reconnectFlag (step h CallDisconnect) = None
  /\ browser (run h [CallDisconnect; CallDisconnect])
     = browser (run h [CallDisconnect]).
Proof.
  unfold run, step, dispatch, state, reconnectFlag. cbn [fold_left].
  rewrite !advance_disconnect. cbn.
  split; [reflexivity | split].
  - apply lookup_delete_eq.
  - f_equal. apply delete_id, lookup_delete_eq.
Qed.

(** ** chainChanged *)

(** C8: a "chainChanged" event delivered while the store is not connected
    leaves the hook as it was: no state update, no storage write, no call
    issued, nothing suspended.  The listener reads the [isConnected] it
    closed over, which the listener effect keeps equal to the store's. *)
Theorem chainChanged_ignored_when_not_connected
    (h : Hook) (chainIdHex : string) :
  isConnected (state h) = false ->
  listeners_current h ->
  step h (ChainChanged chainIdHex) = h.
Proof.
  intros Hdisc Hcur.
  assert (Hseen : listener_isConnected (browser h) = false)
    by (rewrite Hcur; exact Hdisc).
  unfold step, dispatch, handleChainChanged.
  destruct (ethereum (browser h)); cbn [advance];
    rewrite ?Hseen; cbn [negb advance]; apply commit_current, Hcur.
Qed.

Lemma chainChanged_ignored_when_not_connected_witness :
  let h := initialHook {["isWalletConnected" := "true"]} ∅ true in
  isConnected (state h) = false /\ listeners_current h /\
  step h (ChainChanged "0x1") = h.
Proof.
  split; [reflexivity | split; [reflexivity |]].
  apply chainChanged_ignored_when_not_connected; reflexivity.
Defined.

(** ** accountsChanged *)

(** C9: an "accountsChanged" event with an empty array, delivered by the
    provider to a connected store (indeed to a store in any state), leaves
    the exact default record and no persisted reconnect flag. *)
Theorem accountsChanged_empty_disconnects (h : Hook) :
  ethereum (browser h) = true ->
  isConnected (state h) = true ->
  state (step h (AccountsChanged [])) =
    {| address := None; isConnected := false; isConnecting := false;
       error := None; chainId := None; balance := None |}
  /\ reconnectFlag (step h (AccountsChanged [])) = None.
Proof.
  intros Heth _.
  unfold step, dispatch, state, reconnectFlag. rewrite Heth.
  cbn [handleAccountsChanged]. rewrite advance_disconnect. cbn.
  split; [reflexivity | apply lookup_delete_eq].
Qed.

Lemma accountsChanged_empty_disconnects_witness :
  ethereum (browser connectedHook) = true /\
  isConnected (state connectedHook) = true /\
  state (step connectedHook (AccountsChanged [])) = initialWalletState /\
  reconnectFlag (step connectedHook (AccountsChanged [])) = None.
Proof.
  assert (He : ethereum (browser connectedHook) = true)
    by (vm_compute; reflexivity).
  assert (Hc : isConnected (state connectedHook) = true)
    by (vm_compute; reflexivity).
  destruct (accountsChanged_empty_disconnects connectedHook He Hc)
    as (H1 & H2).
  exact (conj He (conj Hc (conj H1 H2))).
Defined.

(** The three steps of a successful [handleAccountsChanged]. *)
Lemma run_accountsChanged
    (h : Hook) (account : string) (others : list string) (chain wei : N) :
  ethereum (browser h) = true ->
  run h [AccountsChanged (account :: others);
         SettleRpc (length (suspended h)) (Fulfilled chain);
         SettleRpc (length (suspended h)) (Fulfilled wei)]
  = {| browser :=
         {| walletState :=
              {| address := Some account;
                 isConnected := true;
                 isConnecting := isConnecting (state h);
                 error := None;
                 chainId := Some (String_of_bigint chain);
                 balance := Some (formatBalance wei) |};
            listener_isConnected := true;
            localStorage := localStorage (browser h);
            sessionStorage := sessionStorage (browser h);
            ethereum := true |};
       suspended := suspended h;
       issued := (issued h ++ [Web3Call GetChainId])
                 ++ [Web3Call (GetBalance account)] |}.
Proof.
  intros Heth. explicit_hook h.
  do 3 step_run. reflexivity.
Qed.

(** C10: from every prior state, the disconnected default included, an
    "accountsChanged" event with a non-empty array whose two fetches
    succeed sets [isConnected], replaces [address], [chainId] and
    [balance] by the first account and the fetched values, clears [error]
    and keeps [isConnecting]; the reconnect flag is not written.  From the
    initial hook this connects a store on which [connect()] never ran. *)
Theorem accountsChanged_connects
    (h : Hook) (account : string) (others : list string) (chain wei : N) :
  ethereum (browser h) = true ->
  let n := length (suspended h) in
  let h' := run h [AccountsChanged (account :: others);
                   SettleRpc n (Fulfilled chain);
                   SettleRpc n (Fulfilled wei)] in
  state h' =
    {| address := Some account;
       isConnected := true;
       isConnecting := isConnecting (state h);
       error := None;
       chainId := Some (String_of_bigint chain);
       balance := Some (formatBalance wei) |}
  /\ reconnectFlag h' = reconnectFlag h
  /\ issued_since h h' = [Web3Call GetChainId; Web3Call (GetBalance account)].
Proof.
  intros Heth n h'. subst n h'. rewrite run_accountsChanged by exact Heth.
  unfold state, reconnectFlag, issued_since. cbn.
  split; [reflexivity | split; [reflexivity |]].
  rewrite <- app_assoc. rewrite drop_app_length. reflexivity.
Qed.

Lemma accountsChanged_connects_witness :
  let h := initialHook ∅ ∅ true in
  let h' := run h [AccountsChanged ["0xABC"];
                   SettleRpc 0 (Fulfilled 1%N);
                   SettleRpc 0 (Fulfilled 1234560000000000000%N)] in
  ethereum (browser h) = true /\
  requested (issued h') = [] /\
  state h' =
    {| address := Some "0xABC"; isConnected := true; isConnecting := false;
       error := None; chainId := Some "1"; balance := Some "1.2346" |}.
Proof.
  split; [reflexivity | split; [vm_compute; reflexivity |]].
  exact (proj1 (accountsChanged_connects (initialHook ∅ ∅ true)
                  "0xABC" [] 1 1234560000000000000 eq_refl)).
Defined.

(** ** connect *)

(** The four steps of a successful [connect()]. *)
Lemma run_connect
    (h : Hook) (account : string) (others : list string) (chain wei : N) :
  ethereum (browser h) = true ->
  run h [CallConnect;
         SettleRequest (length (suspended h))
                       (Fulfilled (Some (account :: others)));
         SettleRpc (length (suspended h)) (Fulfilled chain);
         SettleRpc (length (suspended h)) (Fulfilled wei)]
  = {| browser :=
         {| walletState := connectedState account chain wei;
            listener_isConnected := true;
            localStorage :=
              <["isWalletConnected" := "true"]> (localStorage (browser h));
            sessionStorage := sessionStorage (browser h);
            ethereum := true |};
       suspended := suspended h;
       issued := ((issued h ++ [ProviderRequest "eth_requestAccounts"])
                  ++ [Web3Call GetChainId])
                 ++ [Web3Call (GetBalance account)] |}.
Proof.
  intros Heth. explicit_hook h.
  do 4 step_run. reflexivity.
Qed.

(** [connect()] whose account request is rejected. *)
Lemma run_connect_rejected (h : Hook) (reason : Thrown) :
  ethereum (browser h) = true ->
  run h [CallConnect;
         SettleRequest (length (suspended h)) (Rejected reason)]
  = with_state (requestFailed reason (state h)) (isConnected (state h)) h
               (issued h ++ [ProviderRequest "eth_requestAccounts"]).
Proof.
  intros Heth. explicit_hook h.
  do 2 step_run. destruct reason; reflexivity.
Qed.

(** [connect()] whose chain-id fetch fails. *)
Lemma run_connect_chainId_failed
    (h : Hook) (account : string) (others : list string) (reason : Thrown) :
  ethereum (browser h) = true ->
  run h [CallConnect;
         SettleRequest (length (suspended h))
                       (Fulfilled (Some (account :: others)));
         SettleRpc (length (suspended h)) (Rejected reason)]
  = with_state (requestFailed reason (state h)) (isConnected (state h)) h
               ((issued h ++ [ProviderRequest "eth_requestAccounts"])
                ++ [Web3Call GetChainId]).
Proof.
  intros Heth. explicit_hook h.
  do 3 step_run. destruct reason; reflexivity.
Qed.

(** [connect()] whose balance fetch fails. *)
Lemma run_connect_balance_failed
    (h : Hook) (account : string) (others : list string) (chain : N)
    (reason : Thrown) :
  ethereum (browser h) = true ->
  run h [CallConnect;
         SettleRequest (length (suspended h))
                       (Fulfilled (Some (account :: others)));
         SettleRpc (length (suspended h)) (Fulfilled chain);
         SettleRpc (length (suspended h)) (Rejected reason)]
  = with_state (requestFailed reason (state h)) (isConnected (state h)) h
               (((issued h ++ [ProviderRequest "eth_requestAccounts"])
                 ++ [Web3Call GetChainId])
                ++ [Web3Call (GetBalance account)]).
Proof.
  intros Heth. explicit_hook h.
  do 4 step_run. destruct reason; reflexivity.
Qed.

(** *** The rejection message *)

Lemma prefix_app (pat rest : string) : String.prefix pat (pat +:+ rest) = true.
Proof.
  induction pat as [|c pat IH]; simpl.
  - destruct rest; reflexivity.
  - destruct (ascii_dec c c); [exact IH | congruence].
Qed.

Lemma includes_unfold (pat s : string) :
  Js.includes pat s =
  String.prefix pat s ||
  match s with
  | String _ r => Js.includes pat r
  | EmptyString => false
  end.
Proof. destruct s; reflexivity. Qed.

(** [includes] finds every occurrence. *)
Lemma includes_app (pat before after : string) :
  Js.includes pat (before +:+ (pat +:+ after)) = true.
Proof.
  induction before as [|c before IH].
  - change (Js.includes pat (pat +:+ after) = true).
    rewrite includes_unfold, prefix_app. reflexivity.
  - change (Js.includes pat (String c (before +:+ (pat +:+ after))) = true).
    rewrite includes_unfold, IH. apply orb_true_r.
Qed.

(** C5: when the provider's request rejects with an error whose message
    contains "User rejected", [error] is exactly "Connection rejected by
    user". *)
Theorem connect_user_rejection_message
    (h : Hook) (before after : string) :
  ethereum (browser h) = true ->
  let rejection :=
    ErrorObject (before +:+ ("User rejected" +:+ after)) in
  error (state (run h [CallConnect;
                       SettleRequest (length (suspended h))
                                     (Rejected rejection)]))
  = Some "Connection rejected by user".
Proof.
  intros Heth rejection. subst rejection.
  rewrite run_connect_rejected by exact Heth.
  unfold state, with_state, requestFailed. cbn.
  rewrite includes_app. reflexivity.
Qed.

Lemma connect_user_rejection_message_witness :
  let h := initialHook ∅ ∅ true in
  ethereum (browser h) = true /\
  error (state (run h [CallConnect;
                       SettleRequest 0
                         (Rejected (ErrorObject
                            "MetaMask Tx Signature: User rejected the request."))]))
  = Some "Connection rejected by user".
Proof.
  split; [reflexivity |].
  exact (connect_user_rejection_message (initialHook ∅ ∅ true)
           "MetaMask Tx Signature: " " the request." eq_refl).
Defined.

(** A rejection that is not an [Error] instance is normalised to the same
    string. *)
Lemma connect_non_error_rejection (h : Hook) :
  ethereum (browser h) = true ->
  error (state (run h [CallConnect;
                       SettleRequest (length (suspended h))
                                     (Rejected NonError)]))
  = Some "Connection rejected by user".
Proof.
  intros Heth. rewrite run_connect_rejected by exact Heth. reflexivity.
Qed.

(** *** The balance string *)

Lemma formatBalance_1_23456 : formatBalance 1234560000000000000 = "1.2346"%string.
Proof. vm_compute. reflexivity. Qed.

Lemma String_of_bigint_1 : String_of_bigint 1 = "1"%string.
Proof. vm_compute. reflexivity. Qed.

(** C4, as claimed, fails: with accounts ["0xABC"], chain id 1 and a
    balance of 1234560000000000000 wei (1.23456 ETH), the state after
    [connect()] is not the record with balance "1.2345". *)
Lemma connect_balance_not_truncated :
  state (run (initialHook ∅ ∅ true)
             [CallConnect;
              SettleRequest 0 (Fulfilled (Some ["0xABC"%string]));
              SettleRpc 0 (Fulfilled 1%N);
              SettleRpc 0 (Fulfilled 1234560000000000000%N)])
  <> {| address := Some "0xABC"%string; isConnected := true;
        isConnecting := false; error := None;
        chainId := Some "1"%string; balance := Some "1.2345"%string |}.
Proof.
  intros H. apply (f_equal balance) in H. vm_compute in H. discriminate H.
Qed.

(** C4, amended: when the provider returns a non-empty account list, chain
    id 1 and a balance of 1.23456 ETH, the state after [connect()] is the
    connected record with [chainId] "1" and [balance] "1.2346" ([toFixed]
    rounds to the nearest fourth digit), and the reconnect flag is
    "true". *)
Theorem connect_success_state
    (h : Hook) (account : string) (others : list string) :
  ethereum (browser h) = true ->
  let n := length (suspended h) in
  let h' := run h [CallConnect;
                   SettleRequest n (Fulfilled (Some (account :: others)));
                   SettleRpc n (Fulfilled 1%N);
                   SettleRpc n (Fulfilled 1234560000000000000%N)] in
  state h' =
    {| address := Some account; isConnected := true; isConnecting := false;
       error := None; chainId := Some "1"%string;
       balance := Some "1.2346"%string |}
  /\ reconnectFlag h' = Some "true"%string.
Proof.
  intros Heth n h'. subst n h'. rewrite run_connect by exact Heth.
  unfold state, reconnectFlag, connectedState. cbn.
  rewrite formatBalance_1_23456, String_of_bigint_1.
  split; [reflexivity | apply lookup_insert_eq].
Qed.

Lemma connect_success_state_witness :
  let h := initialHook ∅ ∅ true in
  let h' := run h [CallConnect;
                   SettleRequest 0 (Fulfilled (Some ["0xABC"%string]));
                   SettleRpc 0 (Fulfilled 1%N);
                   SettleRpc 0 (Fulfilled 1234560000000000000%N)] in
  ethereum (browser h) = true /\
  state h' =
    {| address := Some "0xABC"%string; isConnected := true;
       isConnecting := false; error := None; chainId := Some "1"%string;
       balance := Some "1.2346"%string |} /\
  reconnectFlag h' = Some "true"%string.
Proof.
  split; [reflexivity |].
  exact (connect_success_state (initialHook ∅ ∅ true) "0xABC" [] eq_refl).
Defined.

(** ** Auto-reconnect *)

(** The four steps of a successful auto-reconnect. *)
Lemma run_autoReconnect
    (h : Hook) (account : string) (others : list string) (chain wei : N) :
  reconnectFlag h = Some "true"%string ->
  ethereum (browser h) = true ->
  run h [Mount;
         SettleRequest (length (suspended h))
                       (Fulfilled (Some (account :: others)));
         SettleRpc (length (suspended h)) (Fulfilled chain);
         SettleRpc (length (suspended h)) (Fulfilled wei)]
  = {| browser :=
         {| walletState := connectedState account chain wei;
            listener_isConnected := true;
            localStorage := localStorage (browser h);
            sessionStorage := sessionStorage (browser h);
            ethereum := true |};
       suspended := suspended h;
       issued := ((issued h ++ [ProviderRequest "eth_accounts"])
                  ++ [Web3Call GetChainId])
                 ++ [Web3Call (GetBalance account)] |}.
Proof.
  unfold reconnectFlag. intros Hflag Heth. explicit_hook h.
  rewrite run_cons. unfold step at 1, dispatch at 1, autoReconnect.
  cbn [advance browser localStorage].
  rewrite decide_True by exact Hflag.
  cbn. unfold commit. cbn.
  do 3 step_run. reflexivity.
Qed.

Lemma drop_issued {A} (l : list A) (x y z : A) :
  drop (length l) (((l ++ [x]) ++ [y]) ++ [z]) = [x; y; z].
Proof. rewrite <- !app_assoc. rewrite drop_app_length. reflexivity. Qed.

(** C6: with the persisted flag "true" and a silent account query that
    returns at least one authorized account (the chain-id and balance
    fetches succeeding), the mount-time auto-reconnect leaves the very
    record [connect()] would write for the same answers; the only
    provider method it requests is [eth_accounts], and
    [eth_requestAccounts] is never issued. *)
Theorem autoReconnect_connects_silently
    (h : Hook) (account : string) (others : list string) (chain wei : N) :
  reconnectFlag h = Some "true"%string ->
  ethereum (browser h) = true ->
  let n := length (suspended h) in
  let answers := [SettleRequest n (Fulfilled (Some (account :: others)));
                  SettleRpc n (Fulfilled chain);
                  SettleRpc n (Fulfilled wei)] in
  let h' := run h (Mount :: answers) in
  state h' = connectedState account chain wei
  /\ isConnected (state h') = true
  /\ state h' = state (run h (CallConnect :: answers))
  /\ issued_since h h' = [ProviderRequest "eth_accounts";
                          Web3Call GetChainId;
                          Web3Call (GetBalance account)]
  /\ requested (issued_since h h') = ["eth_accounts"%string]
  /\ ~ In "eth_requestAccounts"%string (requested (issued_since h h')).
Proof.
  intros Hflag Heth n answers h'. subst n answers h'.
  rewrite run_autoReconnect by assumption.
  rewrite run_connect by assumption.
  unfold state, issued_since. cbn [browser walletState issued].
  rewrite drop_issued.
  repeat split.
  cbn. intros [H | []]. discriminate H.
Qed.

Lemma autoReconnect_connects_silently_witness :
  let h' := run reloadedHook
              [Mount;
               SettleRequest 0 (Fulfilled (Some ["0xABC"%string]));
               SettleRpc 0 (Fulfilled 1%N);
               SettleRpc 0 (Fulfilled 1234560000000000000%N)] in
  reconnectFlag reloadedHook = Some "true"%string /\
  ethereum (browser reloadedHook) = true /\
  isConnected (state h') = true /\
  requested (issued h') = ["eth_accounts"%string].
Proof.
  assert (Hflag : reconnectFlag reloadedHook = Some "true"%string)
    by (vm_compute; reflexivity).
  assert (Heth : ethereum (browser reloadedHook) = true) by reflexivity.
  destruct (autoReconnect_connects_silently reloadedHook "0xABC" [] 1
              1234560000000000000 Hflag Heth) as (_ & Hc & _ & _ & Hr & _).
  exact (conj Hflag (conj Heth (conj Hc Hr))).
Defined.

Lemma reconnectFailed_silent (h : Hook) (calls : list Call) :
  state (reconnectFailed h calls) = state h
  /\ reconnectFlag (reconnectFailed h calls) = None.
Proof. split; [reflexivity | apply lookup_delete_eq]. Qed.

Ltac mount_step Hflag :=
  rewrite run_cons; unfold step at 1, dispatch at 1, autoReconnect;
  cbn [advance browser localStorage];
  rewrite decide_True by exact Hflag;
  cbn; unfold commit; cbn.

(** The silent account query rejects. *)
Lemma run_autoReconnect_rejected (h : Hook) (reason : Thrown) :
  reconnectFlag h = Some "true"%string ->
  ethereum (browser h) = true ->
  run h [Mount; SettleRequest (length (suspended h)) (Rejected reason)]
  = reconnectFailed h (issued h ++ [ProviderRequest "eth_accounts"]).
Proof.
  unfold reconnectFlag. intros Hflag Heth. explicit_hook h.
  mount_step Hflag. step_run. reflexivity.
Qed.

(** The silent account query resolves to [null]: reading [length]
    throws. *)
Lemma run_autoReconnect_null (h : Hook) :
  reconnectFlag h = Some "true"%string ->
  ethereum (browser h) = true ->
  run h [Mount; SettleRequest (length (suspended h)) (Fulfilled None)]
  = reconnectFailed h (issued h ++ [ProviderRequest "eth_accounts"]).
Proof.
  unfold reconnectFlag. intros Hflag Heth. explicit_hook h.
  mount_step Hflag. step_run. reflexivity.
Qed.

(** The chain-id fetch fails. *)
Lemma run_autoReconnect_chainId_failed
    (h : Hook) (account : string) (others : list string) (reason : Thrown) :
  reconnectFlag h = Some "true"%string ->
  ethereum (browser h) = true ->
  run h [Mount;
         SettleRequest (length (suspended h))
                       (Fulfilled (Some (account :: others)));
         SettleRpc (length (suspended h)) (Rejected reason)]
  = reconnectFailed h ((issued h ++ [ProviderRequest "eth_accounts"])
                       ++ [Web3Call GetChainId]).
Proof.
  unfold reconnectFlag. intros Hflag Heth. explicit_hook h.
  mount_step Hflag. do 2 step_run. reflexivity.
Qed.

(** The balance fetch fails. *)
Lemma run_autoReconnect_balance_failed
    (h : Hook) (account : string) (others : list string) (chain : N)
    (reason : Thrown) :
  reconnectFlag h = Some "true"%string ->
  ethereum (browser h) = true ->
  run h [Mount;
         SettleRequest (length (suspended h))
                       (Fulfilled (Some (account :: others)));
         SettleRpc (length (suspended h)) (Fulfilled chain);
         SettleRpc (length (suspended h)) (Rejected reason)]
  = reconnectFailed h (((issued h ++ [ProviderRequest "eth_accounts"])
                        ++ [Web3Call GetChainId])
                       ++ [Web3Call (GetBalance account)]).
Proof.
  unfold reconnectFlag. intros Hflag Heth. explicit_hook h.
  mount_step Hflag. do 3 step_run. reflexivity.
Qed.

(** An empty account list is not a thrown failure: the [if] at line 155
    has no [else], so nothing is written and the flag stays. *)
Lemma run_autoReconnect_no_accounts (h : Hook) :
  reconnectFlag h = Some "true"%string ->
  ethereum (browser h) = true ->
  run h [Mount; SettleRequest (length (suspended h)) (Fulfilled (Some []))]
  = with_state (state h) (isConnected (state h)) h
               (issued h ++ [ProviderRequest "eth_accounts"]).
Proof.
  unfold reconnectFlag. intros Hflag Heth. explicit_hook h.
  mount_step Hflag. step_run. reflexivity.
Qed.

(** Without a provider [getWeb3()] is [null] and the effect returns at
    line 148, before the [try]: the flag stays as well. *)
Lemma run_autoReconnect_no_provider (h : Hook) :
  reconnectFlag h = Some "true"%string ->
  ethereum (browser h) = false ->
  run h [Mount] = commit h.
Proof.
  unfold reconnectFlag. intros Hflag Heth. explicit_hook h.
  mount_step Hflag. reflexivity.
Qed.

(** C7, evaluated on the code: the page was reloaded with the flag "true",
    the provider answers the silent query with an empty list; the state
    stays at the defaults with no error, but the flag is still "true". *)
Theorem autoReconnect_no_accounts_keeps_flag :
  let h' := run reloadedHook [Mount; SettleRequest 0 (Fulfilled (Some []))] in
  state h' = initialWalletState
  /\ error (state h') = None
  /\ reconnectFlag h' = Some "true"%string
  /\ reconnectFlag h' <> None.
Proof.
  vm_compute. repeat split. discriminate.
Qed.

(** ** Failures inside connect *)

(** Every failure inside the request/fetch path of [connect] (the account
    request rejects, the chain-id fetch fails, the balance fetch fails)
    ends in the inner [catch]: [error] is a message, [isConnecting] is
    false, and [isConnected] is what it was. *)
Lemma connect_failure_state (h : Hook) (reason : Thrown)
    (account : string) (others : list string) (chain : N) :
  ethereum (browser h) = true ->
  let n := length (suspended h) in
  let granted := SettleRequest n (Fulfilled (Some (account :: others))) in
  Forall (fun evs => state (run h evs) = requestFailed reason (state h))
    [ [CallConnect; SettleRequest n (Rejected reason)];
      [CallConnect; granted; SettleRpc n (Rejected reason)];
      [CallConnect; granted; SettleRpc n (Fulfilled chain);
       SettleRpc n (Rejected reason)] ].
Proof.
  intros Heth n granted. subst n granted.
  repeat constructor.
  - rewrite run_connect_rejected by exact Heth. reflexivity.
  - rewrite run_connect_chainId_failed by exact Heth. reflexivity.
  - rewrite run_connect_balance_failed by exact Heth. reflexivity.
Qed.

Lemma requestFailed_flags (reason : Thrown) (prev : WalletState) :
  isConnecting (requestFailed reason prev) = false
  /\ isConnected (requestFailed reason prev) = isConnected prev
  /\ exists message, error (requestFailed reason prev) = Some message.
Proof. repeat split. eexists. reflexivity. Qed.

(** When [isConnected] was false at the failure, both flags end false. *)
Lemma requestFailed_from_disconnected (reason : Thrown) (prev : WalletState) :
  isConnected prev = false ->
  isConnecting (requestFailed reason prev) = false
  /\ isConnected (requestFailed reason prev) = false
  /\ error (requestFailed reason prev) <> None.
Proof. intros H. repeat split; [exact H | discriminate]. Qed.

(** The outer [catch] of [connect] is the one that forces [isConnected]
    to false. *)
Lemma connect_err_flags (err : Thrown) (h : Hook) :
  isConnecting (state (advance (connect_err err) h)) = false
  /\ isConnected (state (advance (connect_err err) h)) = false.
Proof. split; reflexivity. Qed.

(** C2, evaluated on the code.  First run: [connect()] on a connected
    store, the request is rejected.  Second run: [connect()] on the
    default store, the request is granted, the provider's
    "accountsChanged" for the granted account is handled while
    [connect]'s chain-id fetch is pending, and that fetch then fails.
    Both end with an [error] message and [isConnecting] false, but with
    [isConnected] true. *)
Theorem connect_failure_leaves_isConnected :
  state (run connectedHook
           [CallConnect;
            SettleRequest 0 (Rejected (ErrorObject "User rejected the request."))])
  = {| address := Some "0xABC"%string; isConnected := true;
       isConnecting := false;
       error := Some "Connection rejected by user"%string;
       chainId := Some "1"%string; balance := Some "1.2346"%string |}
  /\
  state (run (initialHook ∅ ∅ true)
           [CallConnect;
            SettleRequest 0 (Fulfilled (Some ["0xABC"%string]));
            AccountsChanged ["0xABC"%string];
            SettleRpc 1 (Fulfilled 1%N);
            SettleRpc 1 (Fulfilled 1234560000000000000%N);
            SettleRpc 0 (Rejected (ErrorObject "Failed to fetch"))])
  = {| address := Some "0xABC"%string; isConnected := true;
       isConnecting := false; error := Some "Failed to fetch"%string;
       chainId := Some "1"%string; balance := Some "1.2346"%string |}.
Proof. split; vm_compute; reflexivity. Qed.

(** ** The two flags *)

Lemma trace_last (h : Hook) (evs : list Event) :
  In (run h evs) (trace h evs).
Proof.
  revert h. induction evs as [|ev evs IH]; intros h.
  - left. reflexivity.
  - rewrite run_cons. right. apply IH.
Qed.

(** C1, as claimed, fails: a [connect()] issued on a connected store sets
    [isConnecting] while [isConnected] is still true. *)
Lemma connect_while_connected_sets_both :
  ~ (forall (stored session : gmap string string) (provider : bool)
            (evs : list Event),
        forallb is_call evs = true ->
        Forall (fun h => never_both (state h))
               (trace (initialHook stored session provider) evs)).
Proof.
  intros claim.
  specialize (claim ∅ ∅ true
                (grant "0xABC" 1 1234560000000000000 ++ [CallConnect])
                eq_refl).
  rewrite List.Forall_forall in claim.
  apply (claim _ (trace_last _ _)).
  split; vm_compute; reflexivity.
Qed.

Create HintDb safe.
#[local] Hint Constructors Safe : safe.

Lemma Safe_try_catch (p : Async) (handler : Thrown -> Async) :
  Safe p -> (forall e, Safe (handler e)) -> Safe (try_catch p handler).
Proof.
  intros Hp Hh. induction Hp; cbn; auto with safe.
Qed.

Lemma Safe_setWalletState (f : WalletState -> WalletState) (k : Async) :
  (forall w, never_both w -> never_both (f w)) ->
  Safe k -> Safe (setWalletState f k).
Proof.
  intros Hf Hk. apply Safe_Update; [|exact Hk].
  intros b Hb. apply Hf, Hb.
Qed.

Lemma never_both_not_connecting (w : WalletState) :
  isConnecting w = false -> never_both w.
Proof. intros H [Hc _]. congruence. Qed.

Lemma never_both_not_connected (w : WalletState) :
  isConnected w = false -> never_both w.
Proof. intros H [_ Hc]. congruence. Qed.

#[local] Hint Resolve Safe_try_catch Safe_setWalletState : safe.

Lemma Safe_await_request (m : string) (k : Accounts -> Async) :
  (forall v, Safe (k v)) -> Safe (await_request m k).
Proof. intros Hk. apply Safe_Request. intros [v|e]; auto with safe. Qed.

Lemma Safe_await_rpc (q : Web3Query) (k : N -> Async) :
  (forall v, Safe (k v)) -> Safe (await_rpc q k).
Proof. intros Hk. apply Safe_Rpc. intros [v|e]; auto with safe. Qed.

Lemma Safe_connect_requestError (e : Thrown) : Safe (connect_requestError e).
Proof.
  apply Safe_setWalletState; [|constructor].
  intros w _. apply never_both_not_connecting. reflexivity.
Qed.

Lemma Safe_connect_request : Safe connect_request.
Proof.
  apply Safe_await_request. intros [[|account others]|].
  - apply Safe_setWalletState; [|constructor].
    intros w _. apply never_both_not_connecting. reflexivity.
  - apply Safe_await_rpc. intros chain.
    apply Safe_await_rpc. intros wei.
    apply Safe_setWalletState.
    + intros w _. apply never_both_not_connecting. reflexivity.
    + apply Safe_Update; [|constructor]. intros b Hb. exact Hb.
  - apply Safe_setWalletState; [|constructor].
    intros w _. apply never_both_not_connecting. reflexivity.
Qed.

Lemma Safe_disconnect : Safe disconnect.
Proof.
  apply Safe_setWalletState.
  - intros w _. apply never_both_not_connecting. reflexivity.
  - apply Safe_Update; [intros b Hb; exact Hb |].
    apply Safe_Update; [intros b Hb; exact Hb |].
    apply Safe_Read. intros b. destruct (ethereum b); auto with safe.
Qed.

Lemma advance_Safe (p : Async) :
  Safe p -> forall h, hook_ok h -> hook_ok (advance p h).
Proof.
  induction 1 as [|e|f k Hf Hk IH|k Hk IH|m k Hk IH|m k Hk IH|q k Hk IH];
    intros h [Hs Hp]; cbn [advance].
  - split; assumption.
  - split; assumption.
  - apply IH. split; [apply Hf, Hs | exact Hp].
  - apply IH. split; assumption.
  - split; [exact Hs |]. cbn [suspended].
    apply Forall_app. split; [exact Hp |].
    constructor; [exact Hk | constructor].
  - apply IH. split; assumption.
  - split; [exact Hs |]. cbn [suspended].
    apply Forall_app. split; [exact Hp |].
    constructor; [exact Hk | constructor].
Qed.

Lemma commit_ok (h : Hook) : hook_ok h -> hook_ok (commit h).
Proof. intros H. exact H. Qed.

(** [connect()] on a store that is not connected. *)
Lemma connect_ok (h : Hook) :
  isConnected (state h) = false -> hook_ok h -> hook_ok (advance connect h).
Proof.
  intros Hdisc [Hs Hp]. unfold connect. cbn [try_catch advance].
  destruct (ethereum (browser h)); cbn [negb].
  - unfold connect_start, setWalletState. cbn [try_catch advance].
    apply advance_Safe.
    + apply Safe_try_catch.
      * apply Safe_try_catch;
          [apply Safe_connect_request | apply Safe_connect_requestError].
      * intros e. apply Safe_setWalletState; [|constructor].
        intros w _. apply never_both_not_connecting. reflexivity.
    + split; [|exact Hp].
      apply never_both_not_connected. exact Hdisc.
  - unfold setWalletState. cbn [try_catch advance].
    split; [|exact Hp].
    apply never_both_not_connected. exact Hdisc.
Qed.

Lemma step_ok (h : Hook) (ev : Event) :
  is_call ev = true ->
  match ev with
  | CallConnect => negb (isConnected (state h))
  | _ => true
  end = true ->
  hook_ok h -> hook_ok (step h ev).
Proof.
  intros Hcall Hgate Hok. apply commit_ok.
  destruct ev; try discriminate Hcall; cbn [dispatch].
  - apply connect_ok; [|exact Hok].
    destruct (isConnected (state h)); [discriminate Hgate | reflexivity].
  - apply advance_Safe; [apply Safe_disconnect | exact Hok].
  - destruct (suspended h !! i) as [[k|k]|] eqn:Hi; try exact Hok.
    apply advance_Safe.
    + exact (Forall_lookup_1 _ _ _ _ (proj2 Hok) Hi r).
    + destruct Hok as [Hs Hp]. split; [exact Hs |].
      apply Forall_delete, Hp.
  - destruct (suspended h !! i) as [[k|k]|] eqn:Hi; try exact Hok.
    apply advance_Safe.
    + exact (Forall_lookup_1 _ _ _ _ (proj2 Hok) Hi r).
    + destruct Hok as [Hs Hp]. split; [exact Hs |].
      apply Forall_delete, Hp.
Qed.

Lemma trace_ok (evs : list Event) :
  forall h, hook_ok h ->
  forallb is_call evs = true ->
  connect_gated h evs = true ->
  Forall (fun h' => never_both (state h')) (trace h evs).
Proof.
  induction evs as [|ev evs IH]; intros h Hok Hcalls Hgate;
    cbn [trace]; constructor; try exact (proj1 Hok).
  - constructor.
  - cbn [forallb connect_gated] in Hcalls, Hgate.
    apply andb_prop in Hcalls as [Hcall Hcalls].
    apply andb_prop in Hgate as [Hg Hgate].
    apply IH; [apply step_ok; assumption | exact Hcalls | exact Hgate].
Qed.

(** C1, amended: over every sequence of [connect()] and [disconnect()]
    calls, with the promises they await settling in any order and with
    any outcome, in which each [connect()] is issued while [isConnected]
    is false, no state of the hook has [isConnecting] and [isConnected]
    both true. *)
Theorem flags_never_both_when_connect_gated
    (stored session : gmap string string) (provider : bool)
    (evs : list Event) :
  forallb is_call evs = true ->
  connect_gated (initialHook stored session provider) evs = true ->
  Forall (fun h => never_both (state h))
         (trace (initialHook stored session provider) evs).
Proof.
  apply trace_ok. split; [|constructor].
  apply never_both_not_connected. reflexivity.
Qed.

Lemma flags_never_both_when_connect_gated_witness :
  forallb is_call gatedCalls = true /\
  connect_gated (initialHook ∅ ∅ true) gatedCalls = true /\
  Forall (fun h => never_both (state h))
         (trace (initialHook ∅ ∅ true) gatedCalls).
Proof.
  assert (Hc : forallb is_call gatedCalls = true) by reflexivity.
  assert (Hg : connect_gated (initialHook ∅ ∅ true) gatedCalls = true)
    by (vm_compute; reflexivity).
  exact (conj Hc (conj Hg
           (flags_never_both_when_connect_gated ∅ ∅ true gatedCalls Hc Hg))).
Defined.

(** ** Invariants of every run *)

Section RespectsFacts.

Variable Inv : Browser -> Prop.
Variable M : string -> Prop.

(** The commit changes only the listeners' snapshot. *)
Hypothesis Inv_commit : forall b,
  Inv b ->
  Inv {| walletState := walletState b;
         listener_isConnected := isConnected (walletState b);
         localStorage := localStorage b;
         sessionStorage := sessionStorage b;
         ethereum := ethereum b |}.

Lemma Respects_try_catch (p : Async) (h : Thrown -> Async) :
  Respects Inv M p -> (forall e, Respects Inv M (h e)) ->
  Respects Inv M (try_catch p h).
Proof.
  intros Hp Hh. induction Hp; cbn [try_catch]; try (constructor; auto).
  apply Hh.
Qed.

(** A handler that is never entered need not respect anything. *)
Lemma Respects_try_catch_NoThrow (p : Async) (h : Thrown -> Async) :
  NoThrow p -> Respects Inv M p -> Respects Inv M (try_catch p h).
Proof.
  intros Hn. induction Hn as [|f k Hk IH|k Hk IH|m k Hk IH|m k Hk IH|q k Hk IH];
    intros Hp; inversion Hp; subst; cbn [try_catch]; constructor; auto.
Qed.

Lemma advance_respects (p : Async) :
  Respects Inv M p ->
  forall h, hook_respects Inv M h -> hook_respects Inv M (advance p h).
Proof.
  induction 1 as [|e|f k Hf Hk IH|k Hk IH|m k Hm Hk IH|m k Hm Hk IH|q k Hk IH];
    intros h (Hi & Hs & Hc); cbn [advance].
  - repeat split; assumption.
  - repeat split; assumption.
  - apply IH. repeat split; [apply Hf, Hi | exact Hs | exact Hc].
  - apply IH. repeat split; assumption.
  - repeat split; cbn [browser suspended issued].
    + exact Hi.
    + apply Forall_app. split; [exact Hs |].
      constructor; [exact Hk | constructor].
    + apply Forall_app. split; [exact Hc |].
      constructor; [exact Hm | constructor].
  - apply IH. repeat split; cbn [browser suspended issued];
      [exact Hi | exact Hs |].
    apply Forall_app. split; [exact Hc |].
    constructor; [exact Hm | constructor].
  - repeat split; cbn [browser suspended issued].
    + exact Hi.
    + apply Forall_app. split; [exact Hs |].
      constructor; [exact Hk | constructor].
    + apply Forall_app. split; [exact Hc |].
      constructor; [exact I | constructor].
Qed.

Lemma commit_respects (h : Hook) :
  hook_respects Inv M h -> hook_respects Inv M (commit h).
Proof.
  intros (Hi & Hs & Hc). repeat split; cbn; [apply Inv_commit, Hi | | ];
    assumption.
Qed.

Lemma forget_respects (i : nat) (h : Hook) :
  hook_respects Inv M h -> hook_respects Inv M (forget i h).
Proof.
  intros (Hi & Hs & Hc). repeat split; cbn; [exact Hi | | exact Hc].
  apply Forall_delete, Hs.
Qed.

Lemma step_respects (h : Hook) (ev : Event) :
  (forall p, handler ev = Some p -> Respects Inv M p) ->
  hook_respects Inv M h -> hook_respects Inv M (step h ev).
Proof.
  intros Hev Hok. apply commit_respects.
  destruct ev; cbn [dispatch handler] in *;
    try (destruct (ethereum (browser h)); [|exact Hok]);
    try (apply advance_respects; [apply Hev; reflexivity | exact Hok]).
  - destruct (suspended h !! i) as [[k|k]|] eqn:Hi; try exact Hok.
    apply advance_respects; [|apply forget_respects, Hok].
    exact (Forall_lookup_1 _ _ _ _ (proj1 (proj2 Hok)) Hi r).
  - destruct (suspended h !! i) as [[k|k]|] eqn:Hi; try exact Hok.
    apply advance_respects; [|apply forget_respects, Hok].
    exact (Forall_lookup_1 _ _ _ _ (proj1 (proj2 Hok)) Hi r).
Qed.

(** If the functions run for the events of [evs] respect [Inv] and [M],
    so does every state of the run. *)
Lemma trace_respects (evs : list Event) :
  (forall ev p, In ev evs -> handler ev = Some p -> Respects Inv M p) ->
  forall h, hook_respects Inv M h ->
  Forall (hook_respects Inv M) (trace h evs).
Proof.
  induction evs as [|ev evs IH]; intros Hevs h Hok; cbn [trace];
    constructor; try exact Hok.
  - constructor.
  - apply IH.
    + intros ev' p Hin. apply Hevs. right. exact Hin.
    + apply step_respects; [|exact Hok].
      intros p. apply Hevs. left. reflexivity.
Qed.

End RespectsFacts.

Lemma initialHook_respects (Inv : Browser -> Prop) (M : string -> Prop)
    (stored session : gmap string string) (provider : bool) :
  Inv (browser (initialHook stored session provider)) ->
  hook_respects Inv M (initialHook stored session provider).
Proof. intros H. repeat split; [exact H | constructor | constructor]. Qed.

(** Walk through a function body; what is left are the obligations of its
    state updates and of its requests. *)
Ltac unfold_handlers :=
  unfold handleDisconnect, handleBeforeUnload, handleAccountsChanged,
    handleChainChanged, autoReconnect, disconnect, connect, connect_start,
    connect_request, connect_requestError, connect_err,
    accountsChanged_error, chainChanged_error, await_request, await_rpc,
    setWalletState, localStorage_setItem, localStorage_removeItem,
    sessionStorage_clear.

Ltac walk :=
  repeat (cbn [try_catch];
    first
      [ apply Respects_Done
      | apply Respects_Throw
      | apply Respects_Update; [intros ?b ?Hb |]
      | apply Respects_Read; intros ?b
      | apply Respects_Request; [| intros [?v|?e]]
      | apply Respects_RequestDetached
      | apply Respects_Rpc; intros [?v|?e]
      | match goal with
        | |- Respects _ _ (try_catch (match ?x with _ => _ end) _) =>
            destruct x
        | |- Respects _ _ (match ?x with _ => _ end) => destruct x
        end ]).

Ltac walk_nothrow :=
  repeat (cbn [try_catch];
    first
      [ apply NoThrow_Done
      | apply NoThrow_Update
      | apply NoThrow_Read; intros ?b
      | apply NoThrow_Request; intros [?v|?e]
      | apply NoThrow_RequestDetached
      | apply NoThrow_Rpc; intros [?v|?e]
      | match goal with
        | |- NoThrow (try_catch (match ?x with _ => _ end) _) => destruct x
        | |- NoThrow (match ?x with _ => _ end) => destruct x
        end ]).

(** No exception reaches the outer [catch] of [connect]. *)
Lemma connect_body_NoThrow :
  NoThrow (Read (fun b =>
     if negb (ethereum b) then
       setWalletState (fun prev =>
         {| address := address prev;
            isConnected := isConnected prev;
            isConnecting := isConnecting prev;
            error := Some "MetaMask is not installed. Please install it."%string;
            chainId := chainId prev;
            balance := balance prev |}) Done
     else connect_start)).
Proof. unfold_handlers. walk_nothrow. Qed.

(** *** The connected fields *)

Lemma connect_Respects_NoThrow (Inv : Browser -> Prop) (M : string -> Prop) :
  Respects Inv M
    (Read (fun b =>
       if negb (ethereum b) then
         setWalletState (fun prev =>
           {| address := address prev;
              isConnected := isConnected prev;
              isConnecting := isConnecting prev;
              error := Some "MetaMask is not installed. Please install it."%string;
              chainId := chainId prev;
              balance := balance prev |}) Done
       else connect_start)) ->
  Respects Inv M connect.
Proof.
  intros H. unfold connect.
  apply Respects_try_catch_NoThrow; [exact connect_body_NoThrow | exact H].
Qed.

Ltac populated_update :=
  unfold populated in *; cbn in *;
  first [ assumption
        | repeat split; discriminate
        | repeat split; reflexivity ].

Lemma handlers_populated (ev : Event) (p : Async) :
  handler ev = Some p ->
  Respects (fun b => populated (walletState b)) (fun _ => True) p.
Proof.
  destruct ev; cbn [handler]; intros Hp; inversion Hp; subst p; clear Hp.
  - unfold_handlers. walk; try exact I; populated_update.
  - apply connect_Respects_NoThrow.
    unfold_handlers. walk; try exact I; populated_update.
  - unfold_handlers. walk; try exact I; populated_update.
  - unfold_handlers. walk; try exact I; populated_update.
  - unfold_handlers. walk; try exact I; populated_update.
  - unfold_handlers. walk; try exact I; populated_update.
  - unfold_handlers. walk; try exact I; populated_update.
Qed.

(** X1: whatever happens to the hook (calls, provider events, settlements
    in any order, with any outcome), [isConnected] is true exactly when
    [address], [chainId] and [balance] are all set, and false exactly when
    they are all [null]. *)
Theorem connected_fields_go_together
    (stored session : gmap string string) (provider : bool)
    (evs : list Event) :
  Forall (fun h => populated (state h))
         (trace (initialHook stored session provider) evs).
Proof.
  eapply List.Forall_impl;
    [| apply (trace_respects (fun b => populated (walletState b))
                             (fun _ => True))].
  - intros h (H & _). exact H.
  - intros b Hb. exact Hb.
  - intros ev p _. apply handlers_populated.
  - apply initialHook_respects. cbn. repeat split; reflexivity.
Qed.

(** *** The hook's use of localStorage *)

Lemma handlers_storage (stored : gmap string string) (ev : Event) (p : Async) :
  handler ev = Some p ->
  Respects (storage_respected stored) (fun _ => True) p.
Proof.
  assert (Hset : forall b,
    storage_respected stored b ->
    storage_respected stored
      {| walletState := walletState b;
         listener_isConnected := listener_isConnected b;
         localStorage := <["isWalletConnected"%string := "true"%string]>
                           (localStorage b);
         sessionStorage := sessionStorage b;
         ethereum := ethereum b |}).
  { intros b [Hk Hf]. split; cbn.
    - intros key Hne. rewrite lookup_insert_ne by congruence. apply Hk, Hne.
    - right. left. apply lookup_insert_eq. }
  assert (Hdel : forall b,
    storage_respected stored b ->
    storage_respected stored
      {| walletState := walletState b;
         listener_isConnected := listener_isConnected b;
         localStorage := delete "isWalletConnected"%string (localStorage b);
         sessionStorage := sessionStorage b;
         ethereum := ethereum b |}).
  { intros b [Hk Hf]. split; cbn.
    - intros key Hne. rewrite lookup_delete_ne by congruence. apply Hk, Hne.
    - left. apply lookup_delete_eq. }
  destruct ev; cbn [handler]; intros Hp; inversion Hp; subst p; clear Hp;
    try apply connect_Respects_NoThrow;
    unfold_handlers; walk; try exact I;
    first [ assumption | apply Hset; assumption | apply Hdel; assumption ].
Qed.

(** X2: whatever happens to the hook, every [localStorage] key other
    than "isWalletConnected" keeps the value it had when the page was loaded,
    and the flag is absent, "true", or still what the page was loaded
    with: the hook writes nothing but "true" there. *)
Theorem localStorage_only_the_flag
    (stored session : gmap string string) (provider : bool)
    (evs : list Event) :
  Forall (fun h => storage_respected stored (browser h))
         (trace (initialHook stored session provider) evs).
Proof.
  eapply List.Forall_impl;
    [| apply (trace_respects (storage_respected stored) (fun _ => True))].
  - intros h (H & _). exact H.
  - intros b Hb. exact Hb.
  - intros ev p _. apply handlers_storage.
  - apply initialHook_respects. split; [reflexivity |].
    right. right. reflexivity.
Qed.

(** *** The provider methods *)

Lemma requested_allowed (M : string -> Prop) (calls : list Call) :
  Forall (call_allowed M) calls -> Forall M (requested calls).
Proof.
  induction 1 as [|c calls Hc _ IH]; cbn [requested]; [constructor |].
  destruct c; [constructor; assumption | exact IH].
Qed.

Lemma trace_requested (M : string -> Prop) (evs : list Event)
    (stored session : gmap string string) (provider : bool) :
  (forall ev p, In ev evs -> handler ev = Some p ->
                Respects (fun _ => True) M p) ->
  Forall (fun h => Forall M (requested (issued h)))
         (trace (initialHook stored session provider) evs).
Proof.
  intros Hevs.
  eapply List.Forall_impl;
    [| apply (trace_respects (fun _ => True) M)].
  - intros h (_ & _ & H). apply requested_allowed, H.
  - intros b _. exact I.
  - exact Hevs.
  - apply initialHook_respects. exact I.
Qed.

Ltac method_obligation :=
  first [ exact I
        | unfold known_method; cbn; tauto
        | discriminate
        | intros ?; discriminate ].

Lemma handlers_known_methods (ev : Event) (p : Async) :
  handler ev = Some p -> Respects (fun _ => True) known_method p.
Proof.
  destruct ev; cbn [handler]; intros Hp; inversion Hp; subst p; clear Hp;
    try apply connect_Respects_NoThrow;
    unfold_handlers; walk; method_obligation.
Qed.

(** X3: whatever happens to the hook, the only methods it ever passes
    to [window.ethereum.request] are eth_requestAccounts, eth_accounts and
    wallet_revokePermissions: it never asks the wallet to sign or send
    anything. *)
Theorem only_three_provider_methods
    (stored session : gmap string string) (provider : bool)
    (evs : list Event) :
  Forall (fun h => Forall known_method (requested (issued h)))
         (trace (initialHook stored session provider) evs).
Proof.
  apply trace_requested. intros ev p _. apply handlers_known_methods.
Qed.

Lemma handlers_silent (ev : Event) (p : Async) :
  ev <> CallConnect ->
  handler ev = Some p ->
  Respects (fun _ => True) (fun m => m <> "eth_requestAccounts"%string) p.
Proof.
  destruct ev; cbn [handler]; intros Hne Hp; inversion Hp; subst p; clear Hp;
    try congruence;
    unfold_handlers; walk; method_obligation.
Qed.

(** X4: the user is prompted by [connect()] alone: over any sequence of
    events without a call of [connect()] (mount, [disconnect()], provider events,
    page unloads, settlements), eth_requestAccounts is never requested. *)
Theorem only_connect_prompts
    (stored session : gmap string string) (provider : bool)
    (evs : list Event) :
  ~ In CallConnect evs ->
  Forall (fun h => ~ In "eth_requestAccounts"%string (requested (issued h)))
         (trace (initialHook stored session provider) evs).
Proof.
  intros Hno.
  eapply List.Forall_impl;
    [| apply (trace_requested (fun m => m <> "eth_requestAccounts"%string))].
  - intros h H Hin. rewrite List.Forall_forall in H.
    exact (H _ Hin eq_refl).
  - intros ev p Hin. apply handlers_silent.
    intros ->. exact (Hno Hin).
Qed.

Lemma only_connect_prompts_witness :
  let evs := [Mount;
              SettleRequest 0 (Fulfilled (Some ["0xABC"%string]));
              ProviderDisconnect;
              ChainChanged "0x1"%string] in
  ~ In CallConnect evs /\
  Forall (fun h => ~ In "eth_requestAccounts"%string (requested (issued h)))
         (trace reloadedHook evs).
Proof.
  assert (Hno : ~ In CallConnect
                  [Mount;
                   SettleRequest 0 (Fulfilled (Some ["0xABC"%string]));
                   ProviderDisconnect;
                   ChainChanged "0x1"%string]).
  { cbn. intros [H|[H|[H|[H|[]]]]]; discriminate H. }
  exact (conj Hno
           (only_connect_prompts {["isWalletConnected"%string := "true"%string]}
              ∅ true _ Hno)).
Defined.

Lemma handlers_never_silent_query (ev : Event) (p : Async) :
  is_call ev = true ->
  handler ev = Some p ->
  Respects (fun _ => True) (fun m => m <> "eth_accounts"%string) p.
Proof.
  destruct ev; cbn [handler is_call]; intros Hc Hp; inversion Hp; subst p;
    clear Hp; try discriminate Hc;
    try apply connect_Respects_NoThrow;
    unfold_handlers; walk; method_obligation.
Qed.

(** X5: [connect()] never falls back on the silent query (the comment at
    line 44): over any sequence of [connect()] and [disconnect()] calls and
    settlements, eth_accounts is never requested. *)
Theorem connect_never_queries_silently
    (stored session : gmap string string) (provider : bool)
    (evs : list Event) :
  forallb is_call evs = true ->
  Forall (fun h => ~ In "eth_accounts"%string (requested (issued h)))
         (trace (initialHook stored session provider) evs).
Proof.
  intros Hcalls.
  eapply List.Forall_impl;
    [| apply (trace_requested (fun m => m <> "eth_accounts"%string))].
  - intros h H Hin. rewrite List.Forall_forall in H.
    exact (H _ Hin eq_refl).
  - intros ev p Hin. apply handlers_never_silent_query.
    rewrite forallb_forall in Hcalls. apply Hcalls, Hin.
Qed.

Lemma connect_never_queries_silently_witness :
  forallb is_call gatedCalls = true /\
  Forall (fun h => ~ In "eth_accounts"%string (requested (issued h)))
         (trace (initialHook ∅ ∅ true) gatedCalls).
Proof.
  exact (conj eq_refl
           (connect_never_queries_silently ∅ ∅ true gatedCalls eq_refl)).
Defined.

(** *** isConnecting *)
















(** ** More of connect *)

(** X7: without a provider [connect()] only reports it: [error] is set,
    every other field (in particular [isConnecting]) and both storage areas are
    kept, no call is issued and nothing is suspended. *)
Theorem connect_without_provider (h : Hook) :
  ethereum (browser h) = false ->
  step h CallConnect =
  commit
    {| browser :=
         {| walletState :=
              {| address := address (state h);
                 isConnected := isConnected (state h);
                 isConnecting := isConnecting (state h);
                 error := Some "MetaMask is not installed. Please install it."%string;
                 chainId := chainId (state h);
                 balance := balance (state h) |};
            listener_isConnected := listener_isConnected (browser h);
            localStorage := localStorage (browser h);
            sessionStorage := sessionStorage (browser h);
            ethereum := false |};
       suspended := suspended h;
       issued := issued h |}.
Proof.
  intros Heth. explicit_hook h. reflexivity.
Qed.

Lemma connect_without_provider_witness :
  let h := initialHook ∅ ∅ false in
  ethereum (browser h) = false /\
  error (state (step h CallConnect))
    = Some "MetaMask is not installed. Please install it."%string /\
  issued (step h CallConnect) = [].
Proof.
  split; [reflexivity |].
  rewrite (connect_without_provider (initialHook ∅ ∅ false) eq_refl).
  split; reflexivity.
Defined.

(** [connect()] answered with no account. *)
Lemma run_connect_no_accounts (h : Hook) (accounts : Accounts) :
  ethereum (browser h) = true ->
  accounts = None \/ accounts = Some [] ->
  run h [CallConnect;
         SettleRequest (length (suspended h)) (Fulfilled accounts)]
  = with_state
      {| address := address (state h);
         isConnected := isConnected (state h);
         isConnecting := false;
         error := Some "No accounts found or user rejected connection"%string;
         chainId := chainId (state h);
         balance := balance (state h) |}
      (isConnected (state h)) h
      (issued h ++ [ProviderRequest "eth_requestAccounts"]).
Proof.
  intros Heth Hacc. explicit_hook h.
  destruct Hacc as [-> | ->]; do 2 step_run; reflexivity.
Qed.

(** X8: when the provider resolves the account request with an empty list
    (or with [null]), [connect()] stops there: [isConnecting] is reset,
    [error] is "No accounts found or user rejected connection", the other
    fields are kept, and neither the chain id nor a balance is fetched. *)
Theorem connect_no_accounts (h : Hook) (accounts : Accounts) :
  ethereum (browser h) = true ->
  accounts = None \/ accounts = Some [] ->
  let h' := run h [CallConnect;
                   SettleRequest (length (suspended h)) (Fulfilled accounts)] in
  state h' =
    {| address := address (state h);
       isConnected := isConnected (state h);
       isConnecting := false;
       error := Some "No accounts found or user rejected connection"%string;
       chainId := chainId (state h);
       balance := balance (state h) |}
  /\ issued_since h h' = [ProviderRequest "eth_requestAccounts"]
  /\ suspended h' = suspended h.
Proof.
  intros Heth Hacc h'. subst h'.
  rewrite (run_connect_no_accounts h accounts Heth Hacc).
  unfold issued_since, with_state. cbn.
  rewrite drop_app_length. repeat split.
Qed.

Lemma connect_no_accounts_witness :
  let h := initialHook ∅ ∅ true in
  let h' := run h [CallConnect; SettleRequest 0 (Fulfilled (Some []))] in
  ethereum (browser h) = true /\
  ((Some [] : Accounts) = None \/ (Some [] : Accounts) = Some []) /\
  error (state h') = Some "No accounts found or user rejected connection"%string.
Proof.
  assert (Hacc : (Some [] : Accounts) = None
                 \/ (Some [] : Accounts) = Some [])
    by (right; reflexivity).
  split; [reflexivity | split; [exact Hacc |]].
  destruct (connect_no_accounts (initialHook ∅ ∅ true) (Some []) eq_refl Hacc)
    as (Hs & _).
  exact (f_equal error Hs).
Defined.

(** X9: the reconnect flag is written by a successful [connect()] only:
    when the account request is rejected or comes back empty, or the chain-id or
    balance fetch fails, both storage areas are what they were. *)
Theorem connect_failure_keeps_storage (h : Hook) (reason : Thrown)
    (account : string) (others : list string) (chain : N) :
  ethereum (browser h) = true ->
  let n := length (suspended h) in
  let granted := SettleRequest n (Fulfilled (Some (account :: others))) in
  Forall (fun evs =>
            localStorage (browser (run h evs)) = localStorage (browser h)
            /\ sessionStorage (browser (run h evs))
               = sessionStorage (browser h))
    [ [CallConnect; SettleRequest n (Rejected reason)];
      [CallConnect; SettleRequest n (Fulfilled None)];
      [CallConnect; SettleRequest n (Fulfilled (Some []))];
      [CallConnect; granted; SettleRpc n (Rejected reason)];
      [CallConnect; granted; SettleRpc n (Fulfilled chain);
       SettleRpc n (Rejected reason)] ].
Proof.
  intros Heth n granted. subst n granted.
  repeat (apply List.Forall_cons; [split |]); try apply List.Forall_nil;
    first [ rewrite run_connect_rejected by exact Heth
          | rewrite run_connect_no_accounts
              by first [exact Heth | left; reflexivity | right; reflexivity]
          | rewrite run_connect_chainId_failed by exact Heth
          | rewrite run_connect_balance_failed by exact Heth ];
    reflexivity.
Qed.

Lemma connect_failure_keeps_storage_witness :
  ethereum (browser reloadedHook) = true /\
  reconnectFlag
    (run reloadedHook
       [CallConnect; SettleRequest 0 (Rejected NonError)])
  = Some "true"%string.
Proof.
  split; [reflexivity |].
  pose proof (connect_failure_keeps_storage reloadedHook NonError
                "0xABC" [] 1 eq_refl) as H.
  apply List.Forall_inv in H. destruct H as [Hl _].
  exact (f_equal (fun m : gmap string string =>
                    m !! "isWalletConnected"%string) Hl).
Defined.

(** A [connect()] whose fetches complete after a [disconnect()]. *)
Lemma run_stale_connect
    (h : Hook) (account : string) (others : list string) (chain wei : N) :
  ethereum (browser h) = true ->
  run h [CallConnect;
         SettleRequest (length (suspended h))
                       (Fulfilled (Some (account :: others)));
         CallDisconnect;
         SettleRpc (length (suspended h)) (Fulfilled chain);
         SettleRpc (length (suspended h)) (Fulfilled wei)]
  = {| browser :=
         {| walletState := connectedState account chain wei;
            listener_isConnected := true;
            localStorage :=
              <["isWalletConnected"%string := "true"%string]>
                (delete "isWalletConnected"%string (localStorage (browser h)));
            sessionStorage := ∅;
            ethereum := true |};
       suspended := suspended h;
       issued := ((((issued h ++ [ProviderRequest "eth_requestAccounts"])
                    ++ [Web3Call GetChainId])
                   ++ [ProviderRequest "wallet_revokePermissions"])
                  ++ [Web3Call (GetBalance account)]) |}.
Proof.
  intros Heth. explicit_hook h. do 5 step_run. reflexivity.
Qed.

(** X10: [disconnect()] does not cancel a [connect()] in flight: when
    the fetches of a [connect()] complete after a [disconnect()], the store is
    connected again and the flag is "true" again, although [disconnect()]
    was the last call. *)
Theorem stale_connect_overrides_disconnect
    (h : Hook) (account : string) (others : list string) (chain wei : N) :
  ethereum (browser h) = true ->
  let n := length (suspended h) in
  let h' := run h [CallConnect;
                   SettleRequest n (Fulfilled (Some (account :: others)));
                   CallDisconnect;
                   SettleRpc n (Fulfilled chain);
                   SettleRpc n (Fulfilled wei)] in
  state h' = connectedState account chain wei
  /\ reconnectFlag h' = Some "true"%string.
Proof.
  intros Heth n h'. subst n h'. rewrite run_stale_connect by exact Heth.
  split; [reflexivity | apply lookup_insert_eq].
Qed.

Lemma stale_connect_overrides_disconnect_witness :
  let h := initialHook ∅ ∅ true in
  let h' := run h [CallConnect;
                   SettleRequest 0 (Fulfilled (Some ["0xABC"%string]));
                   CallDisconnect;
                   SettleRpc 0 (Fulfilled 1%N);
                   SettleRpc 0 (Fulfilled 1234560000000000000%N)] in
  ethereum (browser h) = true /\
  isConnected (state h') = true /\
  reconnectFlag h' = Some "true"%string.
Proof.
  split; [reflexivity |].
  destruct (stale_connect_overrides_disconnect (initialHook ∅ ∅ true)
              "0xABC" [] 1 1234560000000000000 eq_refl) as (Hs & Hf).
  split; [exact (f_equal isConnected Hs) | exact Hf].
Defined.

(** ** Reloading and leaving the page *)

(** X11: persist and restore: after a successful [connect()], a reloaded
    page (fresh hook, the [localStorage] the first one left) whose provider
    gives the same answers to the silent query and the two fetches is in
    the same WalletState, having requested eth_accounts only. *)
Theorem reload_restores_connection
    (h : Hook) (account : string) (others : list string) (chain wei : N)
    (session' : gmap string string) :
  ethereum (browser h) = true ->
  let answers n := [SettleRequest n (Fulfilled (Some (account :: others)));
                    SettleRpc n (Fulfilled chain);
                    SettleRpc n (Fulfilled wei)] in
  let connected := run h (CallConnect :: answers (length (suspended h))) in
  let reloaded := initialHook (localStorage (browser connected)) session' true in
  state (run reloaded (Mount :: answers 0%nat)) = state connected
  /\ requested (issued (run reloaded (Mount :: answers 0%nat)))
     = ["eth_accounts"%string].
Proof.
  intros Heth answers connected reloaded. subst answers connected reloaded.
  cbv beta. rewrite run_connect by exact Heth. cbn [browser localStorage].
  set (stored := <["isWalletConnected"%string := "true"%string]>
                   (localStorage (browser h))).
  pose proof (run_autoReconnect (initialHook stored session' true)
                account others chain wei
                (lookup_insert_eq _ _ _) eq_refl) as H.
  cbn [initialHook suspended length browser localStorage sessionStorage issued]
    in H.
  rewrite H. split; reflexivity.
Qed.

Lemma reload_restores_connection_witness :
  let answers n := [SettleRequest n (Fulfilled (Some ["0xABC"%string]));
                    SettleRpc n (Fulfilled 1%N);
                    SettleRpc n (Fulfilled 1234560000000000000%N)] in
  let reloaded := initialHook (localStorage (browser connectedHook)) ∅ true in
  ethereum (browser (initialHook ∅ ∅ true)) = true /\
  state (run reloaded (Mount :: answers 0%nat)) = state connectedHook.
Proof.
  split; [reflexivity |].
  exact (proj1 (reload_restores_connection (initialHook ∅ ∅ true)
                  "0xABC" [] 1 1234560000000000000 ∅ eq_refl)).
Defined.

(** The auto-reconnect returns at once without the flag or without a
    provider. *)
Lemma mount_idle (h : Hook) :
  reconnectFlag h <> Some "true"%string \/ ethereum (browser h) = false ->
  step h Mount = commit h.
Proof.
  unfold reconnectFlag. intros Hcase. explicit_hook h.
  unfold step, dispatch, autoReconnect. cbn [advance browser localStorage].
  destruct (decide (stored !! "isWalletConnected"%string = Some "true"%string))
    as [Hflag|Hflag]; [|reflexivity].
  destruct Hcase as [Hne | ->]; [contradiction | reflexivity].
Qed.

(** X12: at mount nothing happens unless the flag is exactly "true" and
    a provider is present: no call is issued, nothing is suspended, and
    neither the state nor the storage is written (the flag included,
    whatever it holds). *)
Theorem mount_without_flag_or_provider (h : Hook) :
  reconnectFlag h <> Some "true"%string \/ ethereum (browser h) = false ->
  let h' := step h Mount in
  state h' = state h
  /\ localStorage (browser h') = localStorage (browser h)
  /\ sessionStorage (browser h') = sessionStorage (browser h)
  /\ issued h' = issued h
  /\ suspended h' = suspended h.
Proof.
  intros Hcase h'. subst h'. rewrite (mount_idle h Hcase).
  repeat split.
Qed.

Lemma mount_without_flag_or_provider_witness :
  let h := initialHook {["isWalletConnected"%string := "false"%string]} ∅ true in
  (reconnectFlag h <> Some "true"%string \/ ethereum (browser h) = false) /\
  issued (step h Mount) = [].
Proof.
  assert (Hcase : reconnectFlag
                    (initialHook {["isWalletConnected"%string := "false"%string]}
                                 ∅ true) <> Some "true"%string
                  \/ ethereum (browser
                       (initialHook {["isWalletConnected"%string := "false"%string]}
                                    ∅ true)) = false).
  { left. vm_compute. discriminate. }
  split; [exact Hcase |].
  destruct (mount_without_flag_or_provider _ Hcase) as (_ & _ & _ & Hi & _).
  exact Hi.
Defined.

(** A page that is being reloaded keeps everything: [handleBeforeUnload]
    writes nothing when the navigation entry says "reload". *)
Lemma beforeunload_reload (h : Hook) :
  step h (BeforeUnload (Some "reload"%string)) = commit h.
Proof. reflexivity. Qed.

(** X13: a teardown that is not a reload (a closed tab, a navigation, an
    absent navigation entry) removes the flag and touches nothing else;
    the next load of the page then mounts without issuing a call,
    whatever provider it has.  A reload keeps the flag. *)
Theorem beforeunload_close_prevents_reconnect
    (h : Hook) (navType : option string)
    (session' : gmap string string) (provider : bool) :
  navType <> Some "reload"%string ->
  let closed := step h (BeforeUnload navType) in
  let next := initialHook (localStorage (browser closed)) session' provider in
  state closed = state h
  /\ reconnectFlag closed = None
  /\ step next Mount = next
  /\ reconnectFlag (step h (BeforeUnload (Some "reload"%string)))
     = reconnectFlag h.
Proof.
  intros Hne closed next. subst closed next.
  assert (Hclosed : step h (BeforeUnload navType)
                    = commit (advance (localStorage_removeItem
                                         "isWalletConnected" Done) h)).
  { unfold step, dispatch, handleBeforeUnload.
    destruct (decide (navType = Some "reload"%string)) as [Heq|_];
      [contradiction | reflexivity]. }
  rewrite Hclosed.
  split; [reflexivity | split; [apply lookup_delete_eq | split]].
  - rewrite mount_idle; [reflexivity |]. left.
    unfold reconnectFlag. cbn. rewrite lookup_delete_eq. discriminate.
  - reflexivity.
Qed.

Lemma beforeunload_close_prevents_reconnect_witness :
  let closed := step connectedHook (BeforeUnload (Some "navigate"%string)) in
  Some "navigate"%string <> Some "reload"%string /\
  reconnectFlag connectedHook = Some "true"%string /\
  reconnectFlag closed = None.
Proof.
  assert (Hne : Some "navigate"%string <> Some "reload"%string)
    by discriminate.
  split; [exact Hne | split; [vm_compute; reflexivity |]].
  exact (proj1 (proj2 (beforeunload_close_prevents_reconnect
                         connectedHook (Some "navigate"%string) ∅ true Hne))).
Defined.

(** ** More of the provider listeners *)




(** "chainChanged" on a connected store whose provider now lists no
    account. *)
Lemma run_chainChanged_no_accounts (h : Hook) (chainIdHex : string) :
  ethereum (browser h) = true ->
  listener_isConnected (browser h) = true ->
  run h [ChainChanged chainIdHex;
         SettleRequest (length (suspended h)) (Fulfilled (Some []))]
  = {| browser :=
         {| walletState := initialWalletState;
            listener_isConnected := false;
            localStorage :=
              delete "isWalletConnected"%string (localStorage (browser h));
            sessionStorage := ∅;
            ethereum := true |};
       suspended := suspended h;
       issued := (issued h ++ [ProviderRequest "eth_accounts"])
                 ++ [ProviderRequest "wallet_revokePermissions"] |}.
Proof.
  intros Heth Hseen. explicit_hook h. do 2 step_run. reflexivity.
Qed.

(** X15: when a "chainChanged" on a connected store finds that the
    provider lists no account any more, the store is disconnected: default record,
    flag removed, permissions revoked. *)
Theorem chainChanged_without_accounts_disconnects
    (h : Hook) (chainIdHex : string) :
  ethereum (browser h) = true ->
  isConnected (state h) = true ->
  listeners_current h ->
  let h' := run h [ChainChanged chainIdHex;
                   SettleRequest (length (suspended h))
                                 (Fulfilled (Some []))] in
  state h' = initialWalletState
  /\ reconnectFlag h' = None
  /\ issued_since h h' = [ProviderRequest "eth_accounts";
                          ProviderRequest "wallet_revokePermissions"].
Proof.
  intros Heth Hconn Hcur h'. subst h'.
  rewrite run_chainChanged_no_accounts; [| exact Heth | congruence].
  unfold issued_since, reconnectFlag. cbn [issued browser localStorage].
  rewrite <- app_assoc, drop_app_length.
  split; [reflexivity | split; [apply lookup_delete_eq | reflexivity]].
Qed.

Lemma chainChanged_without_accounts_disconnects_witness :
  let h' := run connectedHook
              [ChainChanged "0x5"%string;
               SettleRequest 0 (Fulfilled (Some []))] in
  ethereum (browser connectedHook) = true /\
  isConnected (state connectedHook) = true /\
  listeners_current connectedHook /\
  state h' = initialWalletState /\ reconnectFlag h' = None.
Proof.
  assert (He : ethereum (browser connectedHook) = true)
    by (vm_compute; reflexivity).
  assert (Hc : isConnected (state connectedHook) = true)
    by (vm_compute; reflexivity).
  assert (Hl : listeners_current connectedHook)
    by (vm_compute; reflexivity).
  destruct (chainChanged_without_accounts_disconnects connectedHook "0x5"
              He Hc Hl) as (Hs & Hf & _).
  exact (conj He (conj Hc (conj Hl (conj Hs Hf)))).
Defined.


(** X16: a failed "accountsChanged" (the chain-id or the balance fetch
    rejects) writes the fixed message into [error] and nothing else: the store
    keeps showing the previous account, chain and balance, connected if it
    was. *)
Theorem accountsChanged_failure_keeps_account
    (h : Hook) (account : string) (others : list string) (chain : N)
    (reason : Thrown) :
  ethereum (browser h) = true ->
  let n := length (suspended h) in
  Forall (fun evs =>
            state (run h evs)
            = listenerFailed "Failed to update account information" (state h)
            /\ localStorage (browser (run h evs)) = localStorage (browser h))
    [ [AccountsChanged (account :: others); SettleRpc n (Rejected reason)];
      [AccountsChanged (account :: others); SettleRpc n (Fulfilled chain);
       SettleRpc n (Rejected reason)] ].
Proof.
  intros Heth n. subst n. explicit_hook h.
  assert (H1 : run (mkHook (mkBrowser ws seen stored session true) pending calls)
                 [AccountsChanged (account :: others);
                  SettleRpc (length pending) (Rejected reason)]
               = mkHook (mkBrowser
                   (listenerFailed "Failed to update account information" ws)
                   (isConnected ws) stored session true) pending
                   (calls ++ [Web3Call GetChainId]))
    by (do 2 step_run; reflexivity).
  assert (H2 : run (mkHook (mkBrowser ws seen stored session true) pending calls)
                 [AccountsChanged (account :: others);
                  SettleRpc (length pending) (Fulfilled chain);
                  SettleRpc (length pending) (Rejected reason)]
               = mkHook (mkBrowser
                   (listenerFailed "Failed to update account information" ws)
                   (isConnected ws) stored session true) pending
                   ((calls ++ [Web3Call GetChainId])
                    ++ [Web3Call (GetBalance account)]))
    by (do 3 step_run; reflexivity).
  repeat (apply List.Forall_cons;
            [cbv beta; first [rewrite H1 | rewrite H2]; split; reflexivity |]).
  apply List.Forall_nil.
Qed.

Lemma accountsChanged_failure_keeps_account_witness :
  let h' := run connectedHook
              [AccountsChanged ["0xDEF"%string];
               SettleRpc 0 (Rejected (ErrorObject "timeout"))] in
  ethereum (browser connectedHook) = true /\
  address (state h') = Some "0xABC"%string /\
  isConnected (state h') = true /\
  error (state h') = Some "Failed to update account information"%string.
Proof.
  assert (He : ethereum (browser connectedHook) = true)
    by (vm_compute; reflexivity).
  pose proof (accountsChanged_failure_keeps_account connectedHook "0xDEF" []
                1 (ErrorObject "timeout") He) as H.
  apply List.Forall_inv in H. destruct H as [Hs _].
  split; [exact He |].
  split; [exact (eq_trans (f_equal address Hs) eq_refl) |].
  split; [exact (eq_trans (f_equal isConnected Hs) eq_refl) |].
  exact (f_equal error Hs).
Defined.

(** X17: a failed "chainChanged" on a connected store (the silent query
    rejects or resolves to [null], or the balance fetch rejects) writes the fixed
    message into [error] and nothing else: the store stays connected and
    keeps the previous chain id, although the chain did change. *)
Theorem chainChanged_failure_keeps_chain
    (h : Hook) (chainIdHex account : string) (others : list string)
    (reason : Thrown) :
  ethereum (browser h) = true ->
  isConnected (state h) = true ->
  listeners_current h ->
  let n := length (suspended h) in
  Forall (fun evs =>
            state (run h evs)
            = listenerFailed "Failed to update network information" (state h)
            /\ localStorage (browser (run h evs)) = localStorage (browser h))
    [ [ChainChanged chainIdHex; SettleRequest n (Rejected reason)];
      [ChainChanged chainIdHex; SettleRequest n (Fulfilled None)];
      [ChainChanged chainIdHex;
       SettleRequest n (Fulfilled (Some (account :: others)));
       SettleRpc n (Rejected reason)] ].
Proof.
  intros Heth Hconn Hcur n. subst n.
  assert (Hseen : listener_isConnected (browser h) = true) by congruence.
  clear Hcur. explicit_hook h.
  set (h0 := mkHook (mkBrowser ws true stored session true) pending calls).
  set (failed := listenerFailed "Failed to update network information" ws).
  assert (H1 : run h0 [ChainChanged chainIdHex;
                       SettleRequest (length pending) (Rejected reason)]
               = mkHook (mkBrowser failed (isConnected ws) stored session true)
                   pending (calls ++ [ProviderRequest "eth_accounts"]))
    by (subst h0; do 2 step_run; reflexivity).
  assert (H2 : run h0 [ChainChanged chainIdHex;
                       SettleRequest (length pending) (Fulfilled None)]
               = mkHook (mkBrowser failed (isConnected ws) stored session true)
                   pending (calls ++ [ProviderRequest "eth_accounts"]))
    by (subst h0; do 2 step_run; reflexivity).
  assert (H3 : run h0 [ChainChanged chainIdHex;
                       SettleRequest (length pending)
                                     (Fulfilled (Some (account :: others)));
                       SettleRpc (length pending) (Rejected reason)]
               = mkHook (mkBrowser failed (isConnected ws) stored session true)
                   pending
                   ((calls ++ [ProviderRequest "eth_accounts"])
                    ++ [Web3Call (GetBalance account)]))
    by (subst h0; do 3 step_run; reflexivity).
  repeat (apply List.Forall_cons;
            [cbv beta; first [rewrite H1 | rewrite H2 | rewrite H3];
             split; reflexivity |]).
  apply List.Forall_nil.
Qed.

Lemma chainChanged_failure_keeps_chain_witness :
  let h' := run connectedHook
              [ChainChanged "0x5"%string;
               SettleRequest 0 (Rejected NonError)] in
  ethereum (browser connectedHook) = true /\
  isConnected (state connectedHook) = true /\
  listeners_current connectedHook /\
  chainId (state h') = Some "1"%string /\
  isConnected (state h') = true /\
  error (state h') = Some "Failed to update network information"%string.
Proof.
  assert (He : ethereum (browser connectedHook) = true)
    by (vm_compute; reflexivity).
  assert (Hc : isConnected (state connectedHook) = true)
    by (vm_compute; reflexivity).
  assert (Hl : listeners_current connectedHook)
    by (vm_compute; reflexivity).
  pose proof (chainChanged_failure_keeps_chain connectedHook "0x5" "0xABC" []
                NonError He Hc Hl) as H.
  apply List.Forall_inv in H. destruct H as [Hs _].
  split; [exact He | split; [exact Hc | split; [exact Hl |]]].
  split; [exact (eq_trans (f_equal chainId Hs) eq_refl) |].
  split; [exact (eq_trans (f_equal isConnected Hs) eq_refl) |].
  exact (f_equal error Hs).
Defined.

(** ** More of disconnect *)

(** X18: [disconnect()] never waits: it empties [sessionStorage]
    entirely, requests wallet_revokePermissions exactly once when a provider is
    present (and nothing otherwise) without awaiting the answer, and
    suspends nothing.  The provider's "disconnect" notification, which
    reaches the hook only when a provider is present, does the same. *)
Theorem disconnect_revokes_without_waiting (h : Hook) :
  let h' := step h CallDisconnect in
  sessionStorage (browser h') = ∅
  /\ suspended h' = suspended h
  /\ issued_since h h'
     = (if ethereum (browser h)
        then [ProviderRequest "wallet_revokePermissions"] else [])
  /\ step h ProviderDisconnect
     = (if ethereum (browser h) then h' else commit h).
Proof.
  intros h'. subst h'. unfold step, dispatch, handleDisconnect.
  rewrite advance_disconnect. unfold issued_since. cbn.
  split; [reflexivity | split; [reflexivity | split]].
  - destruct (ethereum (browser h)).
    + rewrite drop_app_length. reflexivity.
    + apply drop_all.
  - destruct (ethereum (browser h)); reflexivity.
Qed.

(** ** The wallet card *)

Lemma take_length (n : nat) (s : string) :
  String.length (JsString.take n s) = Nat.min n (String.length s).
Proof.
  revert s. induction n as [|n IH]; intros [|c s]; cbn; try reflexivity.
  rewrite IH. reflexivity.
Qed.

Lemma drop_length (n : nat) (s : string) :
  String.length (JsString.drop n s) = (String.length s - n)%nat.
Proof.
  revert s. induction n as [|n IH]; intros [|c s]; cbn; try reflexivity.
  apply IH.
Qed.

Lemma append_cons (c : ascii) (a b : string) :
  String c a +:+ b = String c (a +:+ b).
Proof. reflexivity. Qed.

Lemma take_drop (n : nat) (s : string) :
  JsString.take n s +:+ JsString.drop n s = s.
Proof.
  revert s. induction n as [|n IH]; intros [|c s]; simpl; try reflexivity.
  rewrite append_cons, IH. reflexivity.
Qed.

Lemma take_all (n : nat) (s : string) :
  (String.length s <= n)%nat -> JsString.take n s = s.
Proof.
  revert s. induction n as [|n IH]; intros [|c s] H; cbn in *;
    try reflexivity; try lia.
  rewrite IH by lia. reflexivity.
Qed.

Lemma take_take (n m : nat) (s : string) :
  (n <= m)%nat -> JsString.take n (JsString.take m s) = JsString.take n s.
Proof.
  revert m s. induction n as [|n IH]; intros [|m] [|c s] H; cbn;
    try reflexivity; try lia.
  rewrite IH by lia. reflexivity.
Qed.

Lemma drop_take (n m : nat) (s : string) :
  JsString.drop n (JsString.take (n + m) s)
  = JsString.take m (JsString.drop n s).
Proof.
  revert s. induction n as [|n IH]; intros [|c s]; cbn;
    try reflexivity.
  - destruct m; reflexivity.
  - apply IH.
Qed.

Lemma append_assoc (a b c : string) : (a +:+ b) +:+ c = a +:+ (b +:+ c).
Proof.
  induction a as [|x a IH]; [reflexivity |].
  rewrite !append_cons, IH. reflexivity.
Qed.

Lemma length_append (a b : string) :
  String.length (a +:+ b) = (String.length a + String.length b)%nat.
Proof.
  induction a as [|x a IH]; [reflexivity |].
  rewrite append_cons. cbn [String.length]. rewrite IH. reflexivity.
Qed.

(** What the two slices of [formatAddress] are. *)
Lemma formatAddress_slices (addr : string) :
  WalletCard.formatAddress addr
  = JsString.take 6 addr +:+ "..."
    +:+ JsString.drop (String.length addr - 4) addr.
Proof.
  unfold WalletCard.formatAddress, JsString.slice, JsString.clamp.
  cbn [Z.ltb Z.compare].
  replace (Z.to_nat (Z.min 6 (Z.of_nat (String.length addr))))
    with (Nat.min 6 (String.length addr)) by lia.
  replace (Z.to_nat (Z.min 0 (Z.of_nat (String.length addr)))) with 0%nat by lia.
  replace (Z.to_nat (Z.max (Z.of_nat (String.length addr) + -4) 0))
    with (String.length addr - 4)%nat by lia.
  rewrite Nat.sub_0_r. cbn [JsString.drop].
  assert (Ha : JsString.take (Nat.min 6 (String.length addr)) addr
               = JsString.take 6 addr).
  { destruct (Nat.le_ge_cases 6 (String.length addr)) as [H|H].
    - rewrite Nat.min_l by exact H. reflexivity.
    - rewrite Nat.min_r by exact H.
      rewrite (take_all 6) by lia. apply take_all. lia. }
  rewrite Ha. rewrite (take_all (String.length addr - _))
    by (rewrite drop_length; lia).
  reflexivity.
Qed.

(** X19: an address of at least ten characters is shown as its first
    six characters, three dots and its last four: thirteen characters, the
    ones in between left out. *)
Theorem formatAddress_long (addr : string) :
  (10 <= String.length addr)%nat ->
  exists first middle last,
    addr = first +:+ middle +:+ last
    /\ String.length first = 6%nat
    /\ String.length last = 4%nat
    /\ WalletCard.formatAddress addr = first +:+ "..." +:+ last
    /\ String.length (WalletCard.formatAddress addr) = 13%nat.
Proof.
  intros Hlen.
  set (n := (String.length addr - 4)%nat).
  exists (JsString.take 6 addr),
         (JsString.drop 6 (JsString.take n addr)),
         (JsString.drop n addr).
  assert (Hfirst : String.length (JsString.take 6 addr) = 6%nat)
    by (rewrite take_length; lia).
  assert (Hlast : String.length (JsString.drop n addr) = 4%nat)
    by (rewrite drop_length; subst n; lia).
  split; [| split; [exact Hfirst | split; [exact Hlast | split]]].
  - rewrite <- (take_take 6 n addr) by (subst n; lia).
    rewrite <- append_assoc, take_drop, take_drop. reflexivity.
  - apply formatAddress_slices.
  - rewrite formatAddress_slices. subst n.
    rewrite !length_append, Hfirst, Hlast. reflexivity.
Qed.

Lemma formatAddress_long_witness :
  (10 <= String.length "0x1234567890abcdef1234567890abcdef1234abcd")%nat /\
  WalletCard.formatAddress "0x1234567890abcdef1234567890abcdef1234abcd"
  = "0x1234...abcd"%string.
Proof.
  assert (H : (10 <= String.length
                       "0x1234567890abcdef1234567890abcdef1234abcd")%nat)
    by (vm_compute; lia).
  split; [exact H |].
  destruct (formatAddress_long _ H) as (f & m & l & _ & _ & _ & _ & _).
  vm_compute. reflexivity.
Defined.

(** X20: a string of at most four characters is not shortened but
    doubled: [slice(0, 6)] and [slice(-4)] both return it whole. *)
Theorem formatAddress_short (addr : string) :
  (String.length addr <= 4)%nat ->
  WalletCard.formatAddress addr = addr +:+ "..." +:+ addr.
Proof.
  intros Hlen. rewrite formatAddress_slices.
  rewrite take_all by lia.
  replace (String.length addr - 4)%nat with 0%nat by lia.
  destruct addr; reflexivity.
Qed.

Lemma formatAddress_short_witness :
  (String.length "0x1" <= 4)%nat /\
  WalletCard.formatAddress "0x1" = "0x1...0x1"%string.
Proof.
  assert (H : (String.length "0x1" <= 4)%nat) by (vm_compute; lia).
  exact (conj H (formatAddress_short "0x1" H)).
Defined.

(** *** Chain names *)

Lemma to_uint_nonnil (n : N) : N.to_uint n <> Decimal.Nil.
Proof.
  destruct n as [|p]; [discriminate |].
  apply DecimalPos.Unsigned.to_uint_nonnil.
Qed.

(** [String(n)] determines the bigint [n]. *)
Lemma String_of_bigint_inj (a b : N) :
  String_of_bigint a = String_of_bigint b -> a = b.
Proof.
  unfold String_of_bigint, Js.digits. rewrite !N2Z.id. intros H.
  apply (f_equal NilZero.uint_of_string) in H.
  rewrite !NilZero.usu in H by apply to_uint_nonnil.
  apply DecimalN.Unsigned.to_uint_inj. congruence.
Qed.

Lemma String_of_bigint_eqb (k n : N) :
  String.eqb (String_of_bigint k) (String_of_bigint n) = N.eqb k n.
Proof.
  destruct (N.eqb_spec k n) as [->|Hne].
  - apply String.eqb_refl.
  - apply String.eqb_neq. intros H. apply Hne, String_of_bigint_inj, H.
Qed.

(** A decimal string is not the name of a member of [Object.prototype]. *)
Lemma String_of_bigint_not_inherited (n : N) :
  existsb (String.eqb (String_of_bigint n)) WalletCard.Object_prototype
  = false.
Proof.
  unfold String_of_bigint, Js.digits. rewrite N2Z.id.
  pose proof (to_uint_nonnil n) as Hnz.
  destruct (N.to_uint n); try contradiction; reflexivity.
Qed.

(** X21: for every chain id the hook stores from a bigint ([connect],
    the auto-reconnect, "accountsChanged"), [getChainName] returns a string:
    the name of chain 1, 5 or 11155111, and "Chain " followed by the id
    for every other chain. *)
Theorem getChainName_of_chain_id (n : N) :
  WalletCard.getChainName (String_of_bigint n) =
  WalletCard.Name
    (if (n =? 1)%N then "Ethereum Mainnet"
     else if (n =? 5)%N then "Goerli Testnet"
     else if (n =? 11155111)%N then "Sepolia Testnet"
     else "Chain " +:+ String_of_bigint n)%string.
Proof.
  unfold WalletCard.getChainName, WalletCard.chainMap.
  cbn [WalletCard.own_property].
  assert (E1 : String.eqb "1" (String_of_bigint n) = N.eqb 1 n)
    by exact (String_of_bigint_eqb 1 n).
  assert (E5 : String.eqb "5" (String_of_bigint n) = N.eqb 5 n)
    by exact (String_of_bigint_eqb 5 n).
  assert (E3 : String.eqb "11155111" (String_of_bigint n) = N.eqb 11155111 n)
    by exact (String_of_bigint_eqb 11155111 n).
  rewrite E1, E5, E3. clear E1 E5 E3.
  destruct (1 =? n)%N eqn:H1.
  { apply N.eqb_eq in H1. subst n. reflexivity. }
  destruct (5 =? n)%N eqn:H5.
  { apply N.eqb_eq in H5. subst n. reflexivity. }
  destruct (11155111 =? n)%N eqn:H3.
  { apply N.eqb_eq in H3. subst n. reflexivity. }
  rewrite String_of_bigint_not_inherited.
  rewrite (N.eqb_sym n 1), (N.eqb_sym n 5), (N.eqb_sym n 11155111).
  rewrite H1, H5, H3. reflexivity.
Qed.

(** With any other string, [chainMap[id]] can find a member of
    [Object.prototype], which is truthy: the function then returns that
    member instead of a name. *)
Lemma getChainName_inherited :
  WalletCard.getChainName "constructor"
  = WalletCard.Inherited "constructor".
Proof. reflexivity. Qed.

(** *** The button *)

(** X22: through the card's button, [connect()] is issued only on a store
    that is not connected: over every sequence of clicks and settlements, in
    any order and with any outcome, no state shows [isConnecting] and
    [isConnected] both true. *)
Theorem card_never_shows_both_flags
    (stored session : gmap string string) (provider : bool)
    (gs : list WalletCard.Gesture) :
  Forall (fun h => never_both (state h))
         (WalletCard.views (initialHook stored session provider) gs).
Proof.
  assert (Hreact : forall h g, hook_ok h -> hook_ok (WalletCard.react h g)).
  { intros h [|ev] Hok; cbn [WalletCard.react].
    - unfold WalletCard.click, WalletCard.button.
      destruct (isConnected (state h)) eqn:Hc; cbn [negb].
      + apply step_ok; [reflexivity | reflexivity | exact Hok].
      + destruct (negb (isMetamaskInstalled (browser h))
                  || isConnecting (state h)); [exact Hok |].
        apply step_ok; [reflexivity | | exact Hok].
        rewrite Hc. reflexivity.
    - destruct ev; try exact Hok;
        (apply step_ok; [reflexivity | reflexivity | exact Hok]). }
  assert (H : forall gs h, hook_ok h ->
                Forall (fun h' => never_both (state h'))
                       (WalletCard.views h gs)).
  { clear gs. induction gs as [|g gs IH]; intros h Hok;
      cbn [WalletCard.views]; constructor; try exact (proj1 Hok).
    - constructor.
    - apply IH, Hreact, Hok. }
  apply H. split; [|constructor].
  apply never_both_not_connected. reflexivity.
Qed.
